(** * Inkoop vergelijkingstool (app.py): a shallow embedding and its properties

    The development follows [app.py] function by function:

    - [Py]      the pieces of the Python runtime the program uses
                ([str] methods, [int]/[float] conversions, [repr]);
    - [Pandas]  data frames and the pandas operations the program calls;
    - the functions of [app.py] themselves, under their own names;
    - the export path ([to_excel_bytes]) over a store of frame objects, so
      that copies and in-place assignments are told apart.

    Modelling conventions.
    - A Python [str] is a [string] whose characters are the code points
      0..255 (Latin-1), so that ["\xa0"] is the single character 160.
    - A cell is [None], a [float] (binary64, as [spec_float]), an [int] or
      a [str]; this is the variant the data model of the tool names
      (string, number, empty).
    - [float.__repr__] and the string parser of [pandas.to_numeric] belong
      to the runtime, not to the program: they are Section variables. *)

From Stdlib Require Import ZArith Bool Ascii String Decimal DecimalString
  DecimalNat DecimalZ Lia.
From Stdlib Require Import SpecFloat.
From stdpp Require Import gmap strings list sets sorting.

#[local] Set Warnings "-clear-no-such-hyp".

Local Open Scope Z_scope.
Local Open Scope nat_scope.

(* ===================================================================== *)
(** * Python runtime *)
(* ===================================================================== *)

Module Py.

(** [str.isspace] on one character (code points below 256):
    TAB..CR, FS..US, SPACE, NEL and NBSP. The regular-expression class
    [\s] on [str] patterns is the same set. *)
Definition isspace (c : ascii) : bool :=
  let n := nat_of_ascii c in
  ((9 <=? n) && (n <=? 13)) || ((28 <=? n) && (n <=? 32))
  || (n =? 133) || (n =? 160).

Definition NBSP : ascii := ascii_of_nat 160.

(** [s.replace(a, b)] for one-character [a] and [b]. *)
Fixpoint replace_char (a b : ascii) (s : string) : string :=
  match s with
  | EmptyString => EmptyString
  | String c t =>
      String (if Ascii.eqb c a then b else c) (replace_char a b t)
  end.

(** [s.split()]: the maximal runs of non-space characters.
    [word] is the run being read, most recent character last. *)
Fixpoint split_ws_aux (word : string) (s : string) : list string :=
  match s with
  | EmptyString => if String.eqb word "" then [] else [word]
  | String c t =>
      if isspace c
      then (if String.eqb word "" then split_ws_aux "" t
            else word :: split_ws_aux "" t)
      else split_ws_aux (word +:+ String c "") t
  end.

Definition split_ws (s : string) : list string := split_ws_aux "" s.

(** [sep.join(l)] *)
Fixpoint join (sep : string) (l : list string) : string :=
  match l with
  | [] => ""
  | [x] => x
  | x :: t => x +:+ sep +:+ join sep t
  end.

Fixpoint lstrip (s : string) : string :=
  match s with
  | EmptyString => EmptyString
  | String c t => if isspace c then lstrip t else s
  end.

(** [rstrip]: a suffix made of spaces only is dropped. *)
Fixpoint rstrip (s : string) : string :=
  match s with
  | EmptyString => EmptyString
  | String c t =>
      match rstrip t with
      | EmptyString => if isspace c then EmptyString else String c EmptyString
      | t' => String c t'
      end
  end.

Definition strip (s : string) : string := rstrip (lstrip s).

(** [str.lower] on one character: A..Z, and the Latin-1 capitals
    192..222 except the multiplication sign 215. *)
Definition lower_char (c : ascii) : ascii :=
  let n := nat_of_ascii c in
  if ((65 <=? n) && (n <=? 90))
     || ((192 <=? n) && (n <=? 222) && negb (n =? 215))
  then ascii_of_nat (n + 32) else c.

Fixpoint lower (s : string) : string :=
  match s with
  | EmptyString => EmptyString
  | String c t => String (lower_char c) (lower t)
  end.

(** [re.sub(r"\s*P\s*", "P", s)] for a literal character [P].
    The leftmost match starts at the first space of the run that precedes
    [P] and takes every space that follows it. [pending] holds the spaces
    read since the last emitted character ([None] right after a match,
    where further spaces belong to that match). *)
Fixpoint sub_spaces_around (p : ascii) (pending : option string) (s : string)
  : string :=
  match s with
  | EmptyString => default "" pending
  | String c t =>
      if Ascii.eqb c p then String p (sub_spaces_around p None t)
      else if isspace c then
        match pending with
        | None => sub_spaces_around p None t
        | Some w => sub_spaces_around p (Some (w +:+ String c "")) t
        end
      else default "" pending +:+ String c (sub_spaces_around p (Some "") t)
  end.

(** [str(n)] for a natural number and for an integer. *)
Definition str_nat (n : nat) : string :=
  NilZero.string_of_uint (Nat.to_uint n).

Definition str_int (z : Z) : string :=
  NilZero.string_of_int (Z.to_int z).

(** ** [float]: binary64 values as [spec_float] *)

Definition isnan (f : spec_float) : bool :=
  match f with S754_nan => true | _ => false end.

(** [f.is_integer()]: finite and without fractional part. *)
Definition is_integer (f : spec_float) : bool :=
  match f with
  | S754_zero _ => true
  | S754_finite _ m e => (0 <=? e)%Z || (Z.pos m mod 2 ^ (- e) =? 0)%Z
  | S754_infinity _ | S754_nan => false
  end.

(** [int(f)] for a finite [f] (truncation toward zero); Python raises on
    infinities and NaN, which [is_integer] excludes before the call. *)
Definition int_of_float (f : spec_float) : Z :=
  match f with
  | S754_finite s m e =>
      let a := if (0 <=? e)%Z then (Z.pos m * 2 ^ e)%Z
               else (Z.pos m / 2 ^ (- e))%Z in
      if s then (- a)%Z else a
  | _ => 0%Z
  end.

(** [float(z)]: the nearest binary64, ties to even. *)
Definition float_of_int (z : Z) : spec_float :=
  binary_normalize 53 1024 z 0 false.

(** [sorted] on a list of [str]: code point order. *)
Definition str_le (a b : string) : Prop := String.leb a b = true.

#[global] Instance str_le_dec a b : Decision (str_le a b).
Proof. unfold str_le. apply _. Defined.

Definition sorted (l : list string) : list string := merge_sort str_le l.

(** [s[:n]] *)
Definition prefix (n : nat) (s : string) : string := String.substring 0 n s.

(** Characters of a string. *)
Definition chars (s : string) : list ascii := list_ascii_of_string s.

(** ** [repr] of a [str] and of a list of [str] *)

Definition hex_digit (n : nat) : ascii :=
  if n <? 10 then ascii_of_nat (48 + n) else ascii_of_nat (87 + n).

Definition printable (c : ascii) : bool :=
  let n := nat_of_ascii c in
  ((32 <=? n) && (n <? 127)) || ((161 <=? n) && negb (n =? 173)).

Definition repr_char (quote : ascii) (c : ascii) : string :=
  let n := nat_of_ascii c in
  if Ascii.eqb c quote || Ascii.eqb c "\"%char then String "\"%char (String c "")
  else if n =? 9 then "\t"
  else if n =? 10 then "\n"
  else if n =? 13 then "\r"
  else if printable c then String c ""
  else String "\"%char (String "x"%char (String (hex_digit (n / 16))
                                  (String (hex_digit (n mod 16)) ""))).

Fixpoint repr_body (quote : ascii) (s : string) : string :=
  match s with
  | EmptyString => ""
  | String c t => repr_char quote c +:+ repr_body quote t
  end.

Definition has_char (a : ascii) (s : string) : bool :=
  existsb (Ascii.eqb a) (chars s).

Definition SQUOTE : ascii := ascii_of_nat 39.
Definition DQUOTE : ascii := ascii_of_nat 34.

Definition repr_str (s : string) : string :=
  let quote : ascii :=
    if has_char SQUOTE s && negb (has_char DQUOTE s) then DQUOTE else SQUOTE in
  String quote (repr_body quote s) +:+ String quote "".

Definition repr_list (l : list string) : string :=
  "[" +:+ join ", " (map repr_str l) +:+ "]".

End Py.


(* ===================================================================== *)
(** * Cells, exceptions, data frames *)
(* ===================================================================== *)

(** A cell of a frame: [None], a float (NaN included), an int or a str. *)
Inductive value :=
  | VNone
  | VFloat (f : spec_float)
  | VInt (z : Z)
  | VStr (s : string).

#[global] Instance spec_float_eq_dec : EqDecision spec_float.
Proof. solve_decision. Defined.

#[global] Instance value_eq_dec : EqDecision value.
Proof. solve_decision. Defined.

(** The result of [pandas.to_numeric] on one cell. *)
Inductive num :=
  | NInt (z : Z)
  | NFloat (f : spec_float).

Definition value_of_num (x : num) : value :=
  match x with NInt z => VInt z | NFloat f => VFloat f end.

(** Exceptions, by their Python class. *)
Inductive exn :=
  | KeyError (msg : string)
  | ValueError (msg : string)
  | TypeError (msg : string)
  | NameError (msg : string).

(** The outcome of a call: a value, an exception, or a loop that was cut
    off by its iteration bound. *)
Inductive result (A : Type) :=
  | Ok (a : A)
  | Raise (e : exn)
  | OutOfFuel.

Arguments Ok {A} a.
Arguments Raise {A} e.
Arguments OutOfFuel {A}.

(** Sequencing: an exception ends the computation ([x ← r; k]). *)
#[global] Instance result_bind : MBind result :=
  fun A B (k : A → result B) (r : result A) =>
    match r with Ok a => k a | Raise e => Raise e | OutOfFuel => OutOfFuel end.

#[global] Instance result_ret : MRet result := fun A a => Ok a.

(** A frame with the default positional index: the header and the rows.
    A row that is shorter than the header reads as padded with [None]. *)
Record DataFrame := mkDF {
  columns : list string;
  rows : list (list value)
}.

(** A frame indexed by key ([set_index]): the key of each row is kept
    apart from its cells. The keys are [str] objects, which is what
    [_clean_key_value] returns. *)
Record IndexedFrame := mkIF {
  index_name : string;
  icolumns : list string;
  irows : list (string * list value)
}.

Definition index (f : IndexedFrame) : list string := map fst (irows f).

Module Pandas.

(** The positions that carry label [c] in a header. *)
Fixpoint positions_from (i : nat) (c : string) (cols : list string) : list nat :=
  match cols with
  | [] => []
  | x :: t =>
      if decide (x = c) then i :: positions_from (S i) c t
      else positions_from (S i) c t
  end.

Definition positions (c : string) (cols : list string) : list nat :=
  positions_from 0 c cols.

Definition get_cell (p : nat) (row : list value) : value :=
  default VNone (row !! p).

(** Writing position [p] of a row (padding a short row with [None]). *)
Definition set_cell (p : nat) (v : value) (row : list value) : list value :=
  take p (row ++ replicate p VNone) ++ v :: drop (S p) row.

(** [df.rename(columns=m)] *)
Definition rename (m : gmap string string) (df : DataFrame) : DataFrame :=
  mkDF (map (fun c => default c (m !! c)) (columns df)) (rows df).

(** [df[c] = df[src]] for a label [c] that is not yet a column and a
    source column at position [p]: the new column comes last. *)
Definition append_column (c : string) (p : nat) (df : DataFrame) : DataFrame :=
  let w := length (columns df) in
  mkDF (columns df ++ [c])
       (map (fun r => take w (r ++ replicate w VNone) ++ [get_cell p r]) (rows df)).

(** [df[key] = df[key].map(f)]: every column labelled [key]. *)
Definition map_column (key : string) (f : value → value) (df : DataFrame)
  : DataFrame :=
  let ps := positions key (columns df) in
  mkDF (columns df)
       (map (fun r => foldr (fun p r' => set_cell p (f (get_cell p r)) r') r ps)
            (rows df)).

(** The key of a row for [drop_duplicates(subset=[key])]. *)
Definition subset_key (ps : list nat) (r : list value) : list value :=
  map (fun p => get_cell p r) ps.

(** [keep="last"]: a row is dropped when a later row has the same key. *)
Fixpoint keep_last {K} `{EqDecision K} (key : list value → K)
    (rs : list (list value)) : list (list value) :=
  match rs with
  | [] => []
  | r :: t =>
      if decide (key r ∈ map key t) then keep_last key t
      else r :: keep_last key t
  end.

Definition drop_duplicates (key : string) (df : DataFrame) : DataFrame :=
  mkDF (columns df)
       (keep_last (subset_key (positions key (columns df))) (rows df)).

(** [df[cols]]: for each requested label, every column that carries it. *)
Definition select (cols : list string) (df : DataFrame) : DataFrame :=
  let ps := flat_map (fun c => positions c (columns df)) cols in
  mkDF (flat_map (fun c => map (fun _ => c) (positions c (columns df))) cols)
       (map (fun r => map (fun p => get_cell p r) ps) (rows df)).

(** The text of a key cell. The key column holds [str] objects when
    [set_index] is called (lines 69-70 of app.py); no other cell occurs. *)
Definition key_text (v : value) : string :=
  match v with VStr s => s | _ => "" end.

(** [df.set_index(key)]. With several columns labelled [key] the index
    cannot be built ([Index data must be 1-dimensional]). *)
Definition set_index (key : string) (df : DataFrame) : result IndexedFrame :=
  match positions key (columns df) with
  | [p] =>
      Ok (mkIF key (delete p (columns df))
               (map (fun r => (key_text (get_cell p r), delete p r)) (rows df)))
  | _ => Raise (ValueError "Index data must be 1-dimensional")
  end.

(** [df.reset_index()] on a key-indexed frame: the key becomes the first
    cell of its row. *)
Definition restore_key (kr : string * list value) : list value :=
  VStr kr.1 :: kr.2.

Definition reset_index (f : IndexedFrame) : result DataFrame :=
  if decide (index_name f ∈ icolumns f)
  then Raise (ValueError ("cannot insert " +:+ index_name f +:+ ", already exists"))
  else Ok (mkDF (index_name f :: icolumns f) (map restore_key (irows f))).

(** [df.loc[keys]]: for each key in turn, the rows it labels. *)
Definition loc (keys : list string) (f : IndexedFrame) : IndexedFrame :=
  mkIF (index_name f) (icolumns f)
       (flat_map (fun k => filter (fun kr => kr.1 = k) (irows f)) keys).

(** [df[c] = vals] for an existing column at position [p]. *)
Definition set_column (p : nat) (vals : list value) (f : IndexedFrame)
  : IndexedFrame :=
  mkIF (index_name f) (icolumns f)
       (zip_with (fun v kr => (kr.1, set_cell p v kr.2)) vals (irows f)).

(** [x > 0] on a numeric cell. *)
Definition gt0 (v : value) : bool :=
  match v with
  | VInt z => (0 <? z)%Z
  | VFloat f => SFltb (S754_zero false) f
  | _ => false
  end.

(** [df[df[c] > 0]] for the column at position [p]. *)
Definition where_gt0 (p : nat) (f : IndexedFrame) : IndexedFrame :=
  mkIF (index_name f) (icolumns f)
       (filter (fun kr => gt0 (get_cell p kr.2) = true) (irows f)).

(** [s.fillna(0)] on the result of [to_numeric]. *)
Definition fill_zero (x : num) : num :=
  match x with
  | NFloat S754_nan => NFloat (S754_zero false)
  | _ => x
  end.

Definition fillna0 (xs : list num) : list num := map fill_zero xs.

Definition is_int (x : num) : bool :=
  match x with NInt _ => true | NFloat _ => false end.

Definition as_float (x : num) : num :=
  match x with NInt z => NFloat (Py.float_of_int z) | NFloat _ => x end.

End Pandas.

(* ===================================================================== *)
(** * Sample tables *)
(* ===================================================================== *)

(** Small tables on which the statements below are instantiated. The
    runtime of the samples prints every float as [0.5] (no sample key is a
    fractional float) and parses the text [5] only. *)
Module Sample.

Definition float_repr (f : spec_float) : string := "0.5".

Definition parse_number (s : string) : option num :=
  if decide (s = "5") then Some (NInt 5) else None.

Definition uuid (sheet : string) : string :=
  "1b4e28ba-2fa1-11d2-883f-0016d3cca427".

Definition old_raw : DataFrame :=
  mkDF ["item_no"; "Delay"]
       [[VFloat (Py.float_of_int 1001); VInt 3]].

Definition new_raw : DataFrame :=
  mkDF ["Item  Number"; "delay (days)"]
       [[VStr "1001"; VInt 4]; [VInt 7; VStr "5"];
        [VInt 8; VStr "x"]; [VInt 9; VNone]].

Definition old_canon : DataFrame :=
  mkDF ["Item number"; "Delay (days)"]
       [[VFloat (Py.float_of_int 1001); VInt 3]].

Definition old_idx : IndexedFrame :=
  mkIF "Item number" ["Delay (days)"] [("1001", [VInt 3])].

Definition new_idx : IndexedFrame :=
  mkIF "Item number" ["Delay (days)"]
       [("1001", [VInt 4]); ("7", [VStr "5"]); ("8", [VStr "x"]); ("9", [VNone])].

Definition added : DataFrame :=
  mkDF ["Item number"; "Delay (days)"]
       [[VStr "7"; VFloat (Py.float_of_int 5)]].

(** A new file whose item column has a name the canonicaliser does not
    know. *)
Definition new_unknown : DataFrame :=
  mkDF ["Artikel"; "Delay"] [[VInt 1; VInt 2]].

Definition new_unknown_canon : DataFrame :=
  mkDF ["Artikel"; "Delay (days)"] [[VInt 1; VInt 2]].

(** Tables without a delay column, keyed through the [Number] fallback. *)
Definition old_plain : DataFrame := mkDF ["Number"] [[VInt 1]].

Definition new_plain : DataFrame :=
  mkDF ["Number"; "x"] [[VInt 1; VStr "a"]; [VInt 2; VStr "b"]].

Definition old_plain_idx : IndexedFrame :=
  mkIF "Item number" ["Number"] [("1", [VInt 1])].

Definition new_plain_idx : IndexedFrame :=
  mkIF "Item number" ["Number"] [("1", [VInt 1]); ("2", [VInt 2])].

Definition added_plain : DataFrame :=
  mkDF ["Item number"; "Number"] [[VStr "2"; VInt 2]].

End Sample.

(* ===================================================================== *)
(** * app.py: comparison pipeline *)
(* ===================================================================== *)

Section App.

#[local] Set Default Proof Using "Type".

(** [float.__repr__] (used by [str] on a float) and the parser that
    [pandas.to_numeric] applies to a [str] cell ([None]: not a number). *)
Variable float_repr : spec_float → string.
Variable parse_number : string → option num.

(** [str(v)] *)
Definition str (v : value) : string :=
  match v with
  | VNone => "None"
  | VFloat f => float_repr f
  | VInt z => Py.str_int z
  | VStr s => s
  end.

(** [pd.to_numeric(col, errors="coerce")]: each cell becomes a number or
    NaN; the column stays integral when every cell is an int and is
    converted to float64 otherwise. *)
Definition coerce_cell (v : value) : num :=
  match v with
  | VNone => NFloat S754_nan
  | VFloat f => NFloat f
  | VInt z => NInt z
  | VStr s => default (NFloat S754_nan) (parse_number s)
  end.

Definition to_numeric (col : list value) : list num :=
  let xs := map coerce_cell col in
  if forallb Pandas.is_int xs then xs else map Pandas.as_float xs.

(** ** Helpers (lines 19-54) *)

Definition _norm_key_name (name : option string) : string :=
  match name with
  | None => ""
  | Some name =>
      let s := Py.replace_char Py.NBSP " " name in
      let s := Py.lower (Py.strip (Py.join " " (Py.split_ws s))) in
      let s := Py.sub_spaces_around "(" (Some "") s in
      let s := Py.sub_spaces_around ")" (Some "") s in
      s
  end.

Definition item_names : gset string :=
  {[ "item number"; "itemnumber"; "item no"; "item_no"; "itemnr"; "item" ]}.

Definition delay_names : gset string :=
  {[ "delay(days)"; "delay (days)"; "delay_days"; "delay";
     "vertraging(dagen)"; "vertraging (dagen)" ]}.

(** One turn of the loop of [_canon_columns]. *)
Definition canon_step (rename_map : gmap string string) (col : string)
  : gmap string string :=
  let k := _norm_key_name (Some col) in
  if decide (k ∈ item_names) then <[col := "Item number"]> rename_map
  else if decide (k ∈ delay_names) then <[col := "Delay (days)"]> rename_map
  else if decide (k = "number") then <[col := "Number"]> rename_map
  else rename_map.

(** The entry that the loop writes for a label, if any. *)
Definition canon_target (col : string) : option string :=
  let k := _norm_key_name (Some col) in
  if decide (k ∈ item_names) then Some "Item number"
  else if decide (k ∈ delay_names) then Some "Delay (days)"
  else if decide (k = "number") then Some "Number"
  else None.

Definition canon_label (col : string) : string :=
  default col (canon_target col).

Definition _canon_columns (df : DataFrame) : DataFrame :=
  let rename_map := foldl canon_step ∅ (columns df) in
  Pandas.rename rename_map df.

(** With two columns labelled [Number] the right-hand side is a frame of
    two columns, which cannot be assigned to one new label. *)
Definition _ensure_item_number (df : DataFrame) : result DataFrame :=
  if decide (("Item number" ∉ columns df) ∧ ("Number" ∈ columns df)) then
    match Pandas.positions "Number" (columns df) with
    | [p] => Ok (Pandas.append_column "Item number" p df)
    | _ => Raise (ValueError
             "Cannot set a DataFrame with multiple columns to the single column Item number")
    end
  else Ok df.

Definition _clean_key_value (v : value) : string :=
  match v with
  | VNone => ""
  | VFloat f =>
      if Py.isnan f then ""
      else if Py.is_integer f then Py.str_int (Py.int_of_float f)
      else Py.strip (str v)
  | _ => Py.strip (str v)
  end.

(** ** Dataset preparation (lines 56-81) *)

Definition NL : string := String (ascii_of_nat 10) "".
Definition E_ACUTE : string := String (ascii_of_nat 233) "".

Definition missing_key_message (key : string) (old_cols new_cols : list string)
  : string :=
  "Kolom '" +:+ key +:+ "' ontbreekt in " +:+ E_ACUTE +:+ E_ACUTE
    +:+ "n van de bestanden." +:+ NL
    +:+ "Oud kolommen: " +:+ Py.repr_list old_cols +:+ NL
    +:+ "Nieuw kolommen: " +:+ Py.repr_list new_cols.

Definition _prepare (df_old df_new : DataFrame) (key : string)
  : result (IndexedFrame * IndexedFrame * list string) :=
  df_old ← _ensure_item_number (_canon_columns df_old);
  df_new ← _ensure_item_number (_canon_columns df_new);
  if decide ((key ∉ columns df_old) ∨ (key ∉ columns df_new)) then
    Raise (KeyError (missing_key_message key (columns df_old) (columns df_new)))
  else
    let df_old :=
      Pandas.map_column key (fun v => VStr (_clean_key_value v)) df_old in
    let df_new :=
      Pandas.map_column key (fun v => VStr (_clean_key_value v)) df_new in
    let df_old := Pandas.drop_duplicates key df_old in
    let df_new := Pandas.drop_duplicates key df_new in
    let common_cols :=
      Py.sorted (elements ((list_to_set (columns df_new) : gset string)
                           ∩ list_to_set (columns df_old))) in
    let common_cols :=
      if decide (key ∈ common_cols)
      then key :: filter (fun c => c ≠ key) common_cols
      else common_cols in
    df_old ← Pandas.set_index key (Pandas.select common_cols df_old);
    df_new ← Pandas.set_index key (Pandas.select common_cols df_new);
    Ok (df_old, df_new, common_cols).

(** ** Delta filter (lines 83-93) *)

Definition DELAY : string := "Delay (days)".

(** Line 85: [sorted(set(df_new_idx.index) - set(df_old_idx.index))] *)
Definition added_keys (df_old_idx df_new_idx : IndexedFrame) : list string :=
  Py.sorted (elements ((list_to_set (index df_new_idx) : gset string)
                       ∖ list_to_set (index df_old_idx))).

Definition _new_rows_with_delay (df_old_idx df_new_idx : IndexedFrame)
  : result DataFrame :=
  let added_keys := added_keys df_old_idx df_new_idx in
  match added_keys with
  | [] =>
      let cols :=
        "Item number" :: filter (fun c => c ≠ "Item number") (icolumns df_new_idx) in
      Ok (mkDF cols [])
  | _ =>
      let df_added := Pandas.loc added_keys df_new_idx in
      df_added ←
        (if decide (DELAY ∈ icolumns df_added) then
           match Pandas.positions DELAY (icolumns df_added) with
           | [p] =>
               let col := map (fun kr => Pandas.get_cell p kr.2) (irows df_added) in
               let col := Pandas.fillna0 (to_numeric col) in
               let df_added := Pandas.set_column p (map value_of_num col) df_added in
               Ok (Pandas.where_gt0 p df_added)
           | _ => Raise (TypeError "arg must be a list, tuple, 1-d array, or Series")
           end
         else Ok df_added);
      Pandas.reset_index df_added
  end.


(* ===================================================================== *)
(** * app.py: export *)
(* ===================================================================== *)

(** ** Header and table names (lines 95-130) *)

(** The character class [[\[\]\:\*\?\\/]]. *)
Definition _excel_bad_chars (c : ascii) : bool :=
  bool_decide (c ∈ Py.chars "[]:*?\/").

(** [_excel_bad_chars.sub("_", name)] *)
Fixpoint sub_bad_chars (name : string) : string :=
  match name with
  | EmptyString => EmptyString
  | String c t =>
      String (if _excel_bad_chars c then "_"%char else c) (sub_bad_chars t)
  end.

(** The names the loop tries in turn: [base], then [base_2], [base_3], ... *)
Definition suffixed (base : string) (n : nat) : string :=
  if decide (n = 1) then base else base +:+ "_" +:+ Py.str_nat n.

(** The name of column [i] (counted from 1) before it is made unique. *)
Definition header_base (i : nat) (c : option string) : string :=
  let name := match c with Some s => s | None => "" end in
  let name := Py.strip name in
  let name := if decide (name = "") then "Column" +:+ Py.str_nat i else name in
  sub_bad_chars name.

(** The loop [while name in seen: n += 1; name = f"{base}_{n}"]. The body
    runs once for each rejected name, so at most [size seen] times. *)
Fixpoint while_name_in_seen (fuel : nat) (seen : gset string) (base : string)
    (n : nat) (name : string) {struct fuel} : result string :=
  if decide (name ∈ seen) then
    match fuel with
    | O => OutOfFuel
    | S fuel' =>
        let n := S n in
        while_name_in_seen fuel' seen base n (base +:+ "_" +:+ Py.str_nat n)
    end
  else Ok name.

(** The loop over [enumerate(df.columns, start=1)]: the list [cols_out],
    given the position [i] of the next column and the set [seen]. *)
Fixpoint safe_header_loop (i : nat) (seen : gset string)
    (cols : list (option string)) : result (list string) :=
  match cols with
  | [] => Ok []
  | c :: rest =>
      let name := match c with Some s => s | None => "" end in
      let name := Py.strip name in
      let name := if decide (name = "") then "Column" +:+ Py.str_nat i else name in
      let name := sub_bad_chars name in
      let base := name in
      name ← while_name_in_seen (size seen) seen base 1 name;
      cols_out ← safe_header_loop (S i) ({[ name ]} ∪ seen) rest;
      Ok (name :: cols_out)
  end.

Definition safe_headers (cols : list string) : result (list string) :=
  safe_header_loop 1 ∅ (map Some cols).

Definition ascii_alnum_ (c : ascii) : bool :=
  let n := nat_of_ascii c in
  ((48 <=? n) && (n <=? 57)) || ((65 <=? n) && (n <=? 90))
  || ((97 <=? n) && (n <=? 122)) || (n =? 95).

Definition ascii_alpha (c : ascii) : bool :=
  let n := nat_of_ascii c in
  ((65 <=? n) && (n <=? 90)) || ((97 <=? n) && (n <=? 122)).

Fixpoint sub_non_word (s : string) : string :=
  match s with
  | EmptyString => EmptyString
  | String c t => String (if ascii_alnum_ c then c else "_"%char) (sub_non_word t)
  end.

(** [uuid] is the text of the [uuid4()] drawn by this call. *)
Definition _safe_table_name (uuid : string) (sheet_title : string) : string :=
  let base := sub_non_word sheet_title in
  let base :=
    match base with
    | EmptyString => "T_" +:+ base
    | String c _ => if ascii_alpha c then base else "T_" +:+ base
    end in
  let base := Py.prefix 80 base in
  base +:+ "_" +:+ Py.prefix 8 uuid.

(** ** Frames as objects *)

(** The export works on frame objects: [copy] makes a new object, an
    assignment to [columns] changes an object in place. The store is the
    list of objects allocated so far; a reference is a position in it. *)
Inductive pyobj :=
  | OFrame (df : DataFrame)
  | OIndexed (f : IndexedFrame).

Abbreviation loc := nat (only parsing).
Abbreviation heap := (list pyobj) (only parsing).

Definition M (A : Type) : Type := heap → result (A * heap).

#[global] Instance M_ret : MRet M := fun A a h => Ok (a, h).

#[global] Instance M_bind : MBind M :=
  fun A B (k : A → M B) (m : M A) h =>
    match m h with
    | Ok (a, h') => k a h'
    | Raise e => Raise e
    | OutOfFuel => OutOfFuel
    end.

Definition lift {A} (r : result A) : M A :=
  fun h => match r with
           | Ok a => Ok (a, h)
           | Raise e => Raise e
           | OutOfFuel => OutOfFuel
           end.

Definition alloc (o : pyobj) : M loc := fun h => Ok (length h, h ++ [o]).

Definition load (l : loc) : M pyobj :=
  fun h => match h !! l with
           | Some o => Ok (o, h)
           | None => Raise (NameError "reference to no object")
           end.

Definition store (l : loc) (o : pyobj) : M unit :=
  fun h => Ok (tt, <[l := o]> h).

Definition obj_columns (o : pyobj) : list string :=
  match o with OFrame df => columns df | OIndexed f => icolumns f end.

Definition obj_rows (o : pyobj) : list (list value) :=
  match o with OFrame df => rows df | OIndexed f => map snd (irows f) end.

Definition with_columns (cols : list string) (o : pyobj) : pyobj :=
  match o with
  | OFrame df => OFrame (mkDF cols (rows df))
  | OIndexed f => OIndexed (mkIF (index_name f) cols (irows f))
  end.

(** [df.copy()] *)
Definition copy (df : loc) : M loc := o ← load df; alloc o.

(** [df.columns = cols] *)
Definition assign_columns (df : loc) (cols : list string) : M unit :=
  o ← load df;
  if decide (length cols = length (obj_columns o))
  then store df (with_columns cols o)
  else lift (Raise (ValueError "Length mismatch")).

(** [df.reset_index()]: a new frame. On the default index the positions
    become a column [index] (or [level_0]). *)
Definition reset_index_obj (o : pyobj) : result DataFrame :=
  match o with
  | OIndexed f => Pandas.reset_index f
  | OFrame df =>
      let name := if decide ("index" ∈ columns df) then "level_0" else "index" in
      if decide (name ∈ columns df)
      then Raise (ValueError ("cannot insert " +:+ name +:+ ", already exists"))
      else Ok (mkDF (name :: columns df)
                    (imap (fun i r => VInt (Z.of_nat i) :: r) (rows df)))
  end.

Definition reset_index (df : loc) : M loc :=
  o ← load df; out ← lift (reset_index_obj o); alloc (OFrame out).

Definition _excel_safe_headers (df : loc) : M loc :=
  o ← load df;
  cols_out ← lift (safe_headers (obj_columns o));
  out ← copy df;
  _ ← assign_columns out cols_out;
  mret out.

(** ** The workbook (lines 133-169) *)

Record Table := mkTable {
  displayName : string;
  ref : string;
  tableStyle : string;
  showRowStripes : bool
}.

Record Worksheet := mkSheet {
  title : string;
  cells : list (list value);
  tables : list Table
}.

Abbreviation Workbook := (list Worksheet) (only parsing).

(** What the writer puts in a cell: missing values as the empty text,
    infinities by name. *)
Definition excel_value (v : value) : value :=
  match v with
  | VNone | VFloat S754_nan => VStr ""
  | VFloat (S754_infinity false) => VStr "inf"
  | VFloat (S754_infinity true) => VStr "-inf"
  | _ => v
  end.

(** [df.to_excel(xw, sheet_name=..., index=False)]: the header row, then
    one row per data row; a frame without columns writes no cell. *)
Definition sheet_cells (cols : list string) (rws : list (list value))
  : list (list value) :=
  match cols with
  | [] => []
  | _ => map VStr cols
         :: map (fun r => map (fun p => excel_value (Pandas.get_cell p r))
                              (seq 0 (length cols))) rws
  end.

Definition to_excel (o : pyobj) (sheet_name : string) : result Worksheet :=
  let cols := obj_columns o in
  let rws := obj_rows o in
  if decide (1048576 < Z.of_nat (length rws) ∨ 16384 < Z.of_nat (length cols))%Z
  then Raise (ValueError "This sheet is too large!")
  else Ok (mkSheet sheet_name (sheet_cells cols rws) []).

(** [ws.max_row] and [ws.max_column]: 1 on a sheet without cells. *)
Definition max_row (ws : Worksheet) : nat := Nat.max 1 (length (cells ws)).

Definition max_column (ws : Worksheet) : nat :=
  foldr (fun r m => Nat.max (length r) m) 1 (cells ws).

Definition letter (n : nat) : ascii := ascii_of_nat (64 + n).

(** [openpyxl.utils.get_column_letter]: defined on 1..18278. *)
Definition get_column_letter (n : nat) : result string :=
  if decide (Z.of_nat n < 1 ∨ 18278 < Z.of_nat n)%Z
  then Raise (ValueError "Invalid column index")
  else if decide (n ≤ 26) then Ok (String (letter n) "")
  else if decide (n ≤ 702) then
    Ok (String (letter ((n - 27) / 26 + 1)) (String (letter ((n - 27) mod 26 + 1)) ""))
  else
    let m := n - 703 in
    Ok (String (letter (m / 676 + 1))
          (String (letter ((m / 26) mod 26 + 1))
             (String (letter (m mod 26 + 1)) ""))).

Definition table_names (wb : Workbook) : list string :=
  flat_map (fun ws => map displayName (tables ws)) wb.

(** The table that [add_table] builds for a sheet. *)
Definition table_for (uuid : string → string) (ws : Worksheet)
    (last_col_letter : string) : Table :=
  let last_row := max_row ws in
  let ref := "A1:" +:+ last_col_letter +:+ Py.str_nat last_row in
  let tname := _safe_table_name (uuid (title ws)) (title ws) in
  mkTable tname ref "TableStyleMedium9" true.

(** [add_table(wb[s])]; [ws.add_table] refuses a name the workbook
    already has. *)
Definition add_table (uuid : string → string) (wb : Workbook) (s : string)
  : result Workbook :=
  match list_find (fun ws => title ws = s) wb with
  | None => Raise (KeyError ("Worksheet " +:+ s +:+ " does not exist."))
  | Some (i, ws) =>
      if decide (2 ≤ max_row ws ∧ 1 ≤ max_column ws) then
        last_col_letter ← get_column_letter (max_column ws);
        let t := table_for uuid ws last_col_letter in
        if decide (displayName t ∈ table_names wb)
        then Raise (ValueError
               ("Table with name " +:+ displayName t +:+ " already exists"))
        else Ok (<[i := mkSheet (title ws) (cells ws) (tables ws ++ [t])]> wb)
      else Ok wb
  end.

Definition SHEETS : list string :=
  ["Oude_invoer"; "Nieuwe_invoer"; "Nieuwe_rijen_Delay_gt_0"].

(** The document is returned in place of its bytes. [uuid s] is the text
    of the [uuid4()] drawn for the sheet titled [s]. *)
Definition to_excel_bytes (uuid : string → string)
    (df_old_idx df_new_idx df_added_delay : loc) : M Workbook :=
  old_rows ← reset_index df_old_idx;
  df_old_out ← _excel_safe_headers old_rows;
  new_rows ← reset_index df_new_idx;
  df_new_out ← _excel_safe_headers new_rows;
  df_add_out ← _excel_safe_headers df_added_delay;
  o1 ← load df_old_out;
  s1 ← lift (to_excel o1 "Oude_invoer");
  o2 ← load df_new_out;
  s2 ← lift (to_excel o2 "Nieuwe_invoer");
  o3 ← load df_add_out;
  s3 ← lift (to_excel o3 "Nieuwe_rijen_Delay_gt_0");
  lift (foldl (fun wb s => wb ← wb; add_table uuid wb s) (Ok [s1; s2; s3]) SHEETS).

(** ** The comparison as the button runs it (lines 187-202) *)

Definition vergelijk (uuid : string → string) (df_old_raw df_new_raw : DataFrame)
  : M (IndexedFrame * IndexedFrame * DataFrame * Workbook) :=
  prepared ← lift (_prepare df_old_raw df_new_raw "Item number");
  let '(df_old_idx, df_new_idx, _) := prepared in
  df_added_delay ← lift (_new_rows_with_delay df_old_idx df_new_idx);
  old_ref ← alloc (OIndexed df_old_idx);
  new_ref ← alloc (OIndexed df_new_idx);
  added_ref ← alloc (OFrame df_added_delay);
  excel_bytes ← to_excel_bytes uuid old_ref new_ref added_ref;
  mret (df_old_idx, df_new_idx, df_added_delay, excel_bytes).

(* ===================================================================== *)
(** * Vocabulary of the statements *)
(* ===================================================================== *)

Definition is_digit (c : ascii) : Prop :=
  c ∈ Py.chars "0123456789".


Definition no_bad_char (s : string) : Prop :=
  ∀ c, c ∈ Py.chars s → _excel_bad_chars c = false.

Definition header_loop_ok (i : nat) (seen : gset string)
    (cols : list (option string)) (out : list string) : Prop :=
  length out = length cols
  ∧ NoDup out
  ∧ (∀ x, x ∈ out → (x ∉ seen) ∧ x ≠ "" ∧ no_bad_char x)
  ∧ ∀ j c name, cols !! j = Some c → out !! j = Some name →
      ∃ m, 1 ≤ m
        ∧ name = suffixed (header_base (i + j) c) m
        ∧ (name ∉ seen) ∧ (name ∉ take j out)
        ∧ ∀ q, 1 ≤ q < m →
            suffixed (header_base (i + j) c) q ∈ seen
            ∨ suffixed (header_base (i + j) c) q ∈ take j out.

(** The delay of a cell after numeric coercion, a missing or non-numeric
    cell counting as 0. *)
Definition coerced_delay (v : value) : value :=
  value_of_num (Pandas.fill_zero (coerce_cell v)).

(** A cell without a number: [to_numeric] turns it into NaN. *)
Definition not_numeric (v : value) : Prop :=
  coerce_cell v = NFloat S754_nan.

(** A cell that holds a number: an int, or a float other than NaN. *)
Definition is_number (v : value) : Prop :=
  match v with
  | VInt _ => True
  | VFloat f => Py.isnan f = false
  | _ => False
  end.

(** The cell that line 91 writes for the original cell [v]; [all_int]
    tells whether the whole column coerced to integers. *)
Definition numeric_cell (all_int : bool) (v : value) : value :=
  let x := coerce_cell v in
  value_of_num (Pandas.fill_zero (if all_int then x else Pandas.as_float x)).

(** The key of a row of an un-indexed frame: its first cell. *)
Definition row_key (r : list value) : option value := r !! 0.

(** The row that lines 91-93 make of a selected row of the new table. *)
Definition with_numeric_delay (p : nat) (all_int : bool)
    (kr : string * list value) : string * list value :=
  (kr.1, Pandas.set_cell p (numeric_cell all_int (Pandas.get_cell p kr.2)) kr.2).

(** The key of a raw row as [_prepare] sees it. *)
Definition cleaned_key (p : nat) (r : list value) : string :=
  _clean_key_value (Pandas.get_cell p r).


(** A call that does not end in a [KeyError]. *)
Definition no_key_error {A} (r : result A) : Prop :=
  ∀ msg, r ≠ Raise (KeyError msg).

(** The tables of a sheet after [add_table]: one table over the whole
    extent when the sheet has two rows or more, none otherwise. *)
Definition table_rule (uuid : string → string) (ws : Worksheet)
    (ts : list Table) : Prop :=
  if decide (2 ≤ max_row ws ∧ 1 ≤ max_column ws)
  then ∃ last_col_letter,
         get_column_letter (max_column ws) = Ok last_col_letter
         ∧ ts = [table_for uuid ws last_col_letter]
  else ts = [].


(** The table that [_prepare] makes of a canonicalised table [df] whose
    key column is at position [po], for the common labels [rest] other
    than the key: one row for each key, taken from the last row that has
    it, with the cells of the columns that carry a common label. *)
Definition selected_labels (cols rest : list string) : list string :=
  flat_map (fun c => map (fun _ => c) (Pandas.positions c cols)) rest.

Definition selected_positions (cols rest : list string) : list nat :=
  flat_map (fun c => Pandas.positions c cols) rest.

Definition prepared_table (key : string) (rest : list string) (df : DataFrame)
    (po : nat) : IndexedFrame :=
  mkIF key (selected_labels (columns df) rest)
       (map (fun r => (cleaned_key po r,
                       map (fun p => Pandas.get_cell p r)
                           (selected_positions (columns df) rest)))
            (Pandas.keep_last (cleaned_key po) (rows df))).



(* ===================================================================== *)
(** * Properties *)
(* ===================================================================== *)

(** Proofs of facts that do not involve the runtime keep it out of their
    context. *)
Ltac forget_runtime := try clear float_repr; try clear parse_number.

(** ** Strings and numbers *)

#[local] Arguments String.append !_ _ : simpl nomatch.

Lemma append_nil_r (s : string) : s +:+ "" = s.
Proof. induction s as [|c s IH]; simpl; [done | by rewrite IH]. Qed.

Lemma append_assoc (a b c : string) : (a +:+ b) +:+ c = a +:+ (b +:+ c).
Proof. induction a as [|x a IH]; simpl; [done | by rewrite IH]. Qed.

Lemma append_inj_l (a b c : string) : a +:+ b = a +:+ c → b = c.
Proof. induction a as [|x a IH]; simpl; [done | intros [= H]; auto]. Qed.

Lemma chars_append (a b : string) : Py.chars (a +:+ b) = Py.chars a ++ Py.chars b.
Proof. induction a as [|x a IH]; simpl; [done | by rewrite IH]. Qed.

Lemma length_append (a b : string) :
  String.length (a +:+ b) = String.length a + String.length b.
Proof. induction a as [|x a IH]; simpl; [done | by rewrite IH]. Qed.

Lemma string_of_uint_digits (d : uint) :
  Forall is_digit (Py.chars (NilEmpty.string_of_uint d)).
Proof.
  induction d; simpl; constructor; auto;
    unfold is_digit; simpl; set_solver.
Qed.

Lemma str_nat_digits (n : nat) : Forall is_digit (Py.chars (Py.str_nat n)).
Proof.
  unfold Py.str_nat, NilZero.string_of_uint.
  destruct (Nat.to_uint n) eqn:E;
    first [apply string_of_uint_digits | apply (string_of_uint_digits (D0 Nil))].
Qed.

Lemma str_nat_inj (n m : nat) : Py.str_nat n = Py.str_nat m → n = m.
Proof.
  unfold Py.str_nat. intros H.
  apply DecimalNat.Unsigned.to_uint_inj.
  assert (Hn : NilZero.uint_of_string (NilZero.string_of_uint (Nat.to_uint n))
               = Some (Nat.to_uint n)).
  { apply NilZero.usu. intros E.
    pose proof (DecimalNat.Unsigned.to_of (Nat.to_uint n)) as T.
    destruct n; [discriminate|].
    apply (f_equal Nat.of_uint) in E. rewrite DecimalNat.Unsigned.of_to in E.
    discriminate. }
  assert (Hm : NilZero.uint_of_string (NilZero.string_of_uint (Nat.to_uint m))
               = Some (Nat.to_uint m)).
  { apply NilZero.usu. intros E.
    destruct m; [discriminate|].
    apply (f_equal Nat.of_uint) in E. rewrite DecimalNat.Unsigned.of_to in E.
    discriminate. }
  rewrite H in Hn. rewrite Hn in Hm. by injection Hm.
Qed.

Lemma str_int_chars (z : Z) :
  Forall (fun c => is_digit c ∨ c = "-"%char) (Py.chars (Py.str_int z)).
Proof.
  unfold Py.str_int, NilZero.string_of_int.
  assert (D : ∀ d, Forall (fun c => is_digit c ∨ c = "-"%char)
                      (Py.chars (NilZero.string_of_uint d))).
  { intros d. unfold NilZero.string_of_uint.
    assert (Forall is_digit (Py.chars match d with
               | Nil => "0" | _ => NilEmpty.string_of_uint d end)) as H.
    { destruct d;
        first [apply string_of_uint_digits | apply (string_of_uint_digits (D0 Nil))]. }
    eapply Forall_impl; [exact H | auto]. }
  destruct (Z.to_int z); simpl; [apply D | constructor; [by right | apply D]].
Qed.

(** ** Column canonicalisation *)

Lemma canon_step_target (m : gmap string string) (col : string) :
  canon_step m col
  = match canon_target col with Some t => <[col := t]> m | None => m end.
Proof. unfold canon_step, canon_target. repeat case_decide; done. Qed.

Lemma rename_map_lookup (cols : list string) (m : gmap string string) (c : string) :
  foldl canon_step m cols !! c
  = match canon_target c with
    | Some t => if decide (c ∈ cols) then Some t else m !! c
    | None => m !! c
    end.
Proof.
  forget_runtime.
  revert m. induction cols as [|x cols IH]; intros m; cbn [foldl].
  - destruct (canon_target c); [|done].
    rewrite decide_False; [done | set_solver].
  - rewrite IH, canon_step_target.
    destruct (canon_target c) as [t|] eqn:Ec.
    + destruct (decide (c ∈ cols)) as [Hin|Hout].
      * rewrite decide_True; [done | set_solver].
      * destruct (decide (x = c)) as [->|Hne].
        -- rewrite Ec, lookup_insert_eq. rewrite decide_True; [done | set_solver].
        -- rewrite decide_False by set_solver.
           destruct (canon_target x); [by rewrite lookup_insert_ne | done].
    + destruct (canon_target x) as [t|] eqn:Ex; [|done].
      rewrite lookup_insert_ne; [done | congruence].
Qed.

Lemma canon_columns_labels (df : DataFrame) :
  columns (_canon_columns df) = map canon_label (columns df).
Proof.
  unfold _canon_columns, Pandas.rename. simpl.
  apply map_ext_in. intros c Hc%list_elem_of_In.
  rewrite rename_map_lookup. unfold canon_label.
  destruct (canon_target c); [|done].
  by rewrite decide_True.
Qed.

Lemma canon_columns_rows (df : DataFrame) :
  rows (_canon_columns df) = rows df.
Proof. done. Qed.

Lemma canon_label_idem (c : string) : canon_label (canon_label c) = canon_label c.
Proof.
  unfold canon_label at 2 3. destruct (canon_target c) as [t|] eqn:E; simpl.
  - unfold canon_target in E.
    repeat case_decide; simplify_eq; by vm_compute.
  - unfold canon_label. by rewrite E.
Qed.

(** C8. Column canonicalisation is idempotent: canonicalising the output
    of [_canon_columns] gives back the same frame, header and rows. *)
Theorem canon_columns_idempotent (df : DataFrame) :
  _canon_columns (_canon_columns df) = _canon_columns df.
Proof.
  destruct (_canon_columns (_canon_columns df)) as [c2 r2] eqn:E2.
  destruct (_canon_columns df) as [c1 r1] eqn:E1.
  pose proof (canon_columns_labels (mkDF c1 r1)) as L2.
  pose proof (canon_columns_rows (mkDF c1 r1)) as R2.
  pose proof (canon_columns_labels df) as L1.
  rewrite E1 in L1. rewrite E2 in L2, R2. simpl in *. subst.
  f_equal. rewrite map_map. apply map_ext. intros c. apply canon_label_idem.
Qed.

(** ** Key normalisation *)


(** ** Lists *)

Lemma filter_none {A} (P : A → Prop) `{∀ x, Decision (P x)} (l : list A) :
  (∀ x, x ∈ l → ¬ P x) → filter P l = [].
Proof.
  induction l as [|x l IH]; intros Hl; [done|].
  rewrite filter_cons_False by (apply Hl; left).
  apply IH. intros y Hy. apply Hl. by right.
Qed.

(** ** Deduplication *)

Section KeepLast.
Context {K : Type} `{EqDecision K} (key : list value → K).

Lemma keep_last_elem (r : list value) (rs : list (list value)) :
  r ∈ Pandas.keep_last key rs → r ∈ rs.
Proof.
  induction rs as [|x rs IH]; simpl; [done|].
  case_decide; set_solver.
Qed.


Lemma keep_last_keys (k : K) (rs : list (list value)) :
  k ∈ map key (Pandas.keep_last key rs) ↔ k ∈ map key rs.
Proof.
  induction rs as [|x rs IH]; simpl; [done|].
  case_decide as Hx; simpl; rewrite ?elem_of_cons, IH; [|done].
  split; [auto|]. intros [->|?]; auto.
Qed.

Lemma keep_last_NoDup (rs : list (list value)) :
  NoDup (map key (Pandas.keep_last key rs)).
Proof.
  induction rs as [|x rs IH]; simpl; [constructor|].
  case_decide as Hx; [done|]. simpl. constructor; [|done].
  by rewrite keep_last_keys.
Qed.




End KeepLast.

(** ** Header sanitation *)

Lemma sub_bad_chars_no_bad (s : string) : no_bad_char (sub_bad_chars s).
Proof.
  induction s as [|c s IH]; intros x Hx; simpl in Hx.
  - by apply elem_of_nil in Hx.
  - apply elem_of_cons in Hx as [->|Hx]; [|by apply IH].
    destruct (_excel_bad_chars c) eqn:E; [by vm_compute | done].
Qed.

Lemma sub_bad_chars_nonempty (s : string) : s ≠ "" → sub_bad_chars s ≠ "".
Proof. by destruct s. Qed.

Lemma no_bad_char_append (a b : string) :
  no_bad_char a → no_bad_char b → no_bad_char (a +:+ b).
Proof.
  intros Ha Hb c. rewrite chars_append, elem_of_app. intros [?|?]; auto.
Qed.

Lemma str_nat_no_bad (n : nat) : no_bad_char (Py.str_nat n).
Proof.
  intros c Hc. pose proof (str_nat_digits n) as F.
  rewrite Forall_forall in F. specialize (F c Hc).
  unfold is_digit in F. simpl in F.
  repeat (apply elem_of_cons in F as [->|F]; [by vm_compute|]).
  by apply elem_of_nil in F.
Qed.

Lemma header_base_nonempty (i : nat) (c : option string) : header_base i c ≠ "".
Proof.
  unfold header_base. apply sub_bad_chars_nonempty. by case_decide.
Qed.

Lemma header_base_no_bad (i : nat) (c : option string) :
  no_bad_char (header_base i c).
Proof. apply sub_bad_chars_no_bad. Qed.

Lemma suffixed_nonempty (base : string) (n : nat) :
  base ≠ "" → suffixed base n ≠ "".
Proof. unfold suffixed. case_decide; [done|]. by destruct base. Qed.

Lemma suffixed_no_bad (base : string) (n : nat) :
  no_bad_char base → no_bad_char (suffixed base n).
Proof.
  intros Hb. unfold suffixed. case_decide; [done|].
  apply no_bad_char_append; [done|].
  apply no_bad_char_append; [|apply str_nat_no_bad].
  intros c Hc. simpl in Hc. apply elem_of_cons in Hc as [->|Hc]; [by vm_compute|].
  by apply elem_of_nil in Hc.
Qed.

Lemma suffixed_inj (base : string) (i j : nat) :
  suffixed base i = suffixed base j → i = j.
Proof.
  unfold suffixed. repeat case_decide; subst; try done.
  - intros E. apply (f_equal String.length) in E.
    rewrite length_append in E. simpl in E. lia.
  - intros E. apply (f_equal String.length) in E.
    rewrite length_append in E. simpl in E. lia.
  - intros E%append_inj_l. injection E as E. by apply str_nat_inj.
Qed.

(** The names tried so far are distinct members of [seen]. *)
Lemma tried_names_bound (seen : gset string) (base : string) (n : nat) :
  (∀ j, 1 ≤ j ≤ n → suffixed base j ∈ seen) → n ≤ size seen.
Proof.
  intros Hin.
  set (l := map (suffixed base) (seq 1 n)).
  assert (NoDup l) as Hnd.
  { apply NoDup_fmap_2; [|apply NoDup_seq]. intros i j. apply suffixed_inj. }
  assert (list_to_set l ⊆ seen) as Hsub.
  { intros x Hx. apply elem_of_list_to_set in Hx.
    apply list_elem_of_fmap in Hx as (j & -> & Hj).
    apply elem_of_seq in Hj. apply Hin. lia. }
  apply subseteq_size in Hsub.
  rewrite size_list_to_set in Hsub by done.
  unfold l in Hsub. rewrite length_map, length_seq in Hsub. done.
Qed.

(** The loop ends within its bound, on the first free name. *)
Lemma while_name_in_seen_spec (fuel : nat) (seen : gset string) (base : string)
    (n : nat) :
  1 ≤ n →
  (∀ j, 1 ≤ j < n → suffixed base j ∈ seen) →
  size seen ≤ (n - 1) + fuel →
  ∃ m, n ≤ m
    ∧ while_name_in_seen fuel seen base n (suffixed base n) = Ok (suffixed base m)
    ∧ (suffixed base m ∉ seen)
    ∧ ∀ j, 1 ≤ j < m → suffixed base j ∈ seen.
Proof.
  revert n. induction fuel as [|fuel IH]; intros n Hn Hseen Hsize;
    cbn [while_name_in_seen].
  - destruct (decide (suffixed base n ∈ seen)) as [Hin|Hout].
    + exfalso.
      assert (n ≤ size seen); [|lia].
      apply (tried_names_bound seen base). intros j Hj.
      destruct (decide (j = n)) as [->|]; [done | apply Hseen; lia].
    + exists n. done.
  - destruct (decide (suffixed base n ∈ seen)) as [Hin|Hout].
    + destruct (IH (S n)) as (m & Hm & Hr & Hfree & Hbelow); [lia | | lia |].
      { intros j Hj. destruct (decide (j = n)) as [->|]; [done | apply Hseen; lia]. }
      exists m. split; [lia|]. split; [|done].
      assert (suffixed base (S n) = base +:+ "_" +:+ Py.str_nat (S n)) as E.
      { unfold suffixed. by rewrite decide_False by lia. }
      by rewrite E in Hr.
    + exists n. done.
Qed.

Lemma safe_header_loop_spec (cols : list (option string)) (i : nat)
    (seen : gset string) :
  ∃ out, safe_header_loop i seen cols = Ok out ∧ header_loop_ok i seen cols out.
Proof.
  forget_runtime.
  revert i seen. induction cols as [|c cols IH]; intros i seen.
  - exists []. split; [done|]. split; [done|]. split; [constructor|].
    split; [intros x Hx; by apply elem_of_nil in Hx | done].
  - cbn [safe_header_loop]. fold (header_base i c).
    destruct (while_name_in_seen_spec (size seen) seen (header_base i c) 1)
      as (m & Hm & Hr & Hfree & Hbelow); [lia | intros; lia | lia |].
    change (suffixed (header_base i c) 1) with (header_base i c) in Hr.
    rewrite Hr. cbn [mbind result_bind].
    set (name := suffixed (header_base i c) m) in *.
    destruct (IH (S i) ({[name]} ∪ seen)) as (out & Ho & Hlen & Hnd & Hall & Hstep).
    rewrite Ho. cbn [mbind result_bind].
    exists (name :: out). split; [done|].
    split; [simpl; by rewrite Hlen|].
    split.
    { constructor; [|done]. intros Hin. apply Hall in Hin as [Hin _]. set_solver. }
    split.
    { intros x [->|Hx]%elem_of_cons.
      - split; [done|]. split.
        + apply suffixed_nonempty, header_base_nonempty.
        + apply suffixed_no_bad, header_base_no_bad.
      - destruct (Hall x Hx) as (Hs & ? & ?). split; [set_solver | done]. }
    intros [|j] c' name' Hc Hn; simpl in Hc, Hn.
    + simplify_eq. exists m. rewrite Nat.add_0_r.
      split; [done|]. split; [done|]. split; [done|].
      split; [simpl; apply not_elem_of_nil|].
      intros q Hq. left. by apply Hbelow.
    + destruct (Hstep j c' name' Hc Hn) as (m' & Hm' & Heq & Hns & Hnt & Hq).
      replace (i + S j) with (S i + j) by lia.
      exists m'. split; [done|]. split; [done|].
      split; [set_solver|]. split.
      { simpl. rewrite not_elem_of_cons. split; [set_solver | done]. }
      intros q Hq'. destruct (Hq q Hq') as [H1|H1].
      * apply elem_of_union in H1 as [H1|H1]; [|by left].
        apply elem_of_singleton in H1. right. rewrite H1. cbn [take]. by left.
      * right. cbn [take]. by right.
Qed.

(** ** Delta filter *)

Lemma sorted_elem (l : list string) (k : string) : k ∈ Py.sorted l ↔ k ∈ l.
Proof. unfold Py.sorted. by rewrite merge_sort_Permutation. Qed.

Lemma sorted_NoDup (l : list string) : NoDup l → NoDup (Py.sorted l).
Proof. unfold Py.sorted. by rewrite merge_sort_Permutation. Qed.

Lemma added_keys_elem (o n : IndexedFrame) (k : string) :
  k ∈ added_keys o n ↔ k ∈ index n ∧ k ∉ index o.
Proof.
  unfold added_keys. rewrite sorted_elem, elem_of_elements.
  rewrite elem_of_difference, !elem_of_list_to_set. done.
Qed.

Lemma added_keys_NoDup (o n : IndexedFrame) : NoDup (added_keys o n).
Proof. apply sorted_NoDup, NoDup_elements. Qed.

Lemma loc_rows_elem (ks : list string) (f : IndexedFrame) (kr : string * list value) :
  kr ∈ irows (Pandas.loc ks f) ↔ kr.1 ∈ ks ∧ kr ∈ irows f.
Proof.
  unfold Pandas.loc. simpl. rewrite list_elem_of_In, in_flat_map. split.
  - intros (k & Hk%list_elem_of_In & Hin%list_elem_of_In).
    apply list_elem_of_filter in Hin as [<- Hin]. done.
  - intros [Hk Hin]. exists kr.1. split; [by apply list_elem_of_In|].
    apply list_elem_of_In, list_elem_of_filter. done.
Qed.

Lemma get_set_cell (p : nat) (v : value) (r : list value) :
  Pandas.get_cell p (Pandas.set_cell p v r) = v.
Proof.
  unfold Pandas.get_cell, Pandas.set_cell.
  rewrite lookup_app_r; rewrite length_take, length_app, length_replicate;
    [|lia].
  replace (p - p `min` (length r + p)) with 0 by lia. done.
Qed.

Lemma get_cell_restore (p : nat) (kr : string * list value) :
  Pandas.get_cell (S p) (Pandas.restore_key kr) = Pandas.get_cell p kr.2.
Proof. done. Qed.

Lemma positions_from_shift (i : nat) (c : string) (l : list string) :
  Pandas.positions_from (S i) c l = map S (Pandas.positions_from i c l).
Proof.
  revert i. induction l as [|x l IH]; intros i; simpl; [done|].
  case_decide; simpl; by rewrite IH.
Qed.

Lemma positions_from_elem (i : nat) (c : string) (l : list string) (q : nat) :
  q ∈ Pandas.positions_from i c l ↔ i ≤ q ∧ l !! (q - i) = Some c.
Proof.
  forget_runtime.
  revert i. induction l as [|x l IH]; intros i; simpl.
  - rewrite elem_of_nil. naive_solver.
  - assert (∀ y : option string, i < q → (x :: l) !! (q - i) = y ↔ l !! (q - S i) = y)
      as Hgt.
    { intros y Hlt. by replace (q - i) with (S (q - S i)) by lia. }
    case_decide as Hx; rewrite ?elem_of_cons, IH.
    + subst x. split.
      * intros [E|[Hq Hl]].
        -- subst q. split; [lia|]. by rewrite Nat.sub_diag.
        -- split; [lia|]. apply Hgt; [lia | done].
      * intros [Hq Hl]. destruct (decide (q = i)) as [E|E]; [by left|].
        right. split; [lia|]. apply Hgt; [lia | done].
    + split.
      * intros [Hq Hl]. split; [lia|]. apply Hgt; [lia | done].
      * intros [Hq Hl]. destruct (decide (q = i)) as [E|E].
        -- subst q. rewrite Nat.sub_diag in Hl. simpl in Hl. congruence.
        -- split; [lia|]. apply Hgt; [lia | done].
Qed.

Lemma positions_elem (c : string) (l : list string) (q : nat) :
  q ∈ Pandas.positions c l ↔ l !! q = Some c.
Proof.
  forget_runtime.
  unfold Pandas.positions. rewrite positions_from_elem.
  replace (q - 0) with q by lia. naive_solver lia.
Qed.

Lemma positions_nil (c : string) (l : list string) :
  Pandas.positions c l = [] ↔ c ∉ l.
Proof.
  split.
  - intros E [q Hq]%list_elem_of_lookup. apply positions_elem in Hq.
    rewrite E in Hq. by apply elem_of_nil in Hq.
  - intros Hc. destruct (Pandas.positions c l) as [|q qs] eqn:E; [done|].
    exfalso. apply Hc. apply list_elem_of_lookup. exists q.
    apply positions_elem. rewrite E. by left.
Qed.

Lemma positions_cons_ne (x c : string) (l : list string) :
  x ≠ c → Pandas.positions c (x :: l) = map S (Pandas.positions c l).
Proof.
  intros Hx. unfold Pandas.positions. simpl.
  rewrite decide_False by done. apply positions_from_shift.
Qed.

Lemma zip_with_map_self {A B C} (f : B → A → C) (g : A → B) (l : list A) :
  zip_with f (map g l) l = map (fun x => f (g x) x) l.
Proof. induction l as [|x l IH]; simpl; [done | by rewrite IH]. Qed.

Lemma numeric_cell_number (b : bool) (v : value) : is_number (numeric_cell b v).
Proof.
  unfold numeric_cell.
  destruct (coerce_cell v) as [z|f]; destruct b; simpl; try done;
    first [by destruct f | by destruct (Py.float_of_int z)].
Qed.

Lemma numeric_cell_not_numeric (b : bool) (v : value) :
  not_numeric v → Pandas.gt0 (numeric_cell b v) = false.
Proof. unfold not_numeric, numeric_cell. intros ->. by destruct b. Qed.

Lemma gt0_coerced_delay (v : value) :
  Pandas.gt0 v = true → Pandas.gt0 (coerced_delay v) = true.
Proof.
  unfold coerced_delay. destruct v as [|f|z|s]; simpl; try done.
  by destruct f.
Qed.

(** The shape of the result of [_new_rows_with_delay]. *)
Lemma new_rows_with_delay_shape (o n : IndexedFrame) (out : DataFrame) :
  _new_rows_with_delay o n = Ok out →
  (added_keys o n = []
   ∧ out = mkDF ("Item number" :: filter (fun c => c ≠ "Item number") (icolumns n)) [])
  ∨ (added_keys o n ≠ []
     ∧ (index_name n ∉ icolumns n)
     ∧ columns out = index_name n :: icolumns n
     ∧ ((DELAY ∉ icolumns n)
        ∧ rows out = map Pandas.restore_key (irows (Pandas.loc (added_keys o n) n))
        ∨ ∃ p all_int,
            Pandas.positions DELAY (icolumns n) = [p]
            ∧ rows out
              = map Pandas.restore_key
                  (filter (fun kr => Pandas.gt0 (Pandas.get_cell p kr.2) = true)
                     (map (with_numeric_delay p all_int)
                        (irows (Pandas.loc (added_keys o n) n)))))).
Proof.
  unfold _new_rows_with_delay.
  destruct (added_keys o n) as [|k ks] eqn:Ek.
  - intros [= <-]. by left.
  - intros H. right. split; [done|].
    set (L := Pandas.loc (k :: ks) n) in *.
    change (icolumns L) with (icolumns n) in H.
    destruct (decide (DELAY ∈ icolumns n)) as [Hd|Hd].
    + destruct (Pandas.positions DELAY (icolumns n)) as [|p [|p' ps]] eqn:Ep;
        [done | | done].
      cbn [mbind result_bind] in H. unfold Pandas.reset_index in H.
      cbn [index_name icolumns irows Pandas.where_gt0 Pandas.set_column] in H.
      case_decide as Hn; [done|]. injection H as <-.
      split; [done|]. split; [done|]. right.
      unfold to_numeric, Pandas.fillna0 in *.
      exists p, (forallb Pandas.is_int
                   (map coerce_cell (map (fun kr => Pandas.get_cell p kr.2) (irows L)))).
      split; [done|]. cbn [rows]. f_equal. f_equal.
      destruct (forallb _ _) eqn:Eb.
      * rewrite !map_map. rewrite zip_with_map_self. done.
      * rewrite !map_map. rewrite zip_with_map_self. done.
    + cbn [mbind result_bind] in H. unfold Pandas.reset_index in H.
      change (icolumns L) with (icolumns n) in H.
      change (index_name L) with (index_name n) in H.
      case_decide as Hn; [done|]. injection H as <-.
      split; [done|]. split; [done|]. by left.
Qed.

Lemma shape_rows_keys (o n : IndexedFrame) (out : DataFrame) (r : list value) :
  _new_rows_with_delay o n = Ok out → r ∈ rows out →
  ∃ kr, kr ∈ irows n ∧ kr.1 ∈ added_keys o n
        ∧ row_key r = Some (VStr kr.1)
        ∧ ((DELAY ∉ icolumns n) ∧ r = Pandas.restore_key kr
           ∨ ∃ p all_int, Pandas.positions DELAY (icolumns n) = [p]
               ∧ r = Pandas.restore_key (with_numeric_delay p all_int kr)
               ∧ Pandas.gt0 (numeric_cell all_int (Pandas.get_cell p kr.2)) = true).
Proof.
  intros H Hr.
  apply new_rows_with_delay_shape in H
    as [[_ ->]|(_ & _ & _ & [[Hnd E]|(p & b & Ep & E)])].
  - by apply elem_of_nil in Hr.
  - rewrite E in Hr. apply list_elem_of_fmap in Hr as (kr & -> & Hkr).
    apply loc_rows_elem in Hkr as [Hk Hin].
    exists kr. repeat split; auto.
  - rewrite E in Hr. apply list_elem_of_fmap in Hr as (kr' & -> & Hkr).
    apply list_elem_of_filter in Hkr as [Hgt Hkr].
    apply list_elem_of_fmap in Hkr as (kr & -> & Hkr).
    apply loc_rows_elem in Hkr as [Hk Hin].
    exists kr. repeat split; auto. right. exists p, b.
    split; [done|]. split; [done|].
    unfold with_numeric_delay in Hgt. simpl in Hgt.
    by rewrite get_set_cell in Hgt.
Qed.

Lemma shape_delay_positions (o n : IndexedFrame) (out : DataFrame)
    (r : list value) (q : nat) :
  _new_rows_with_delay o n = Ok out → DELAY ∈ icolumns n → r ∈ rows out →
  q ∈ Pandas.positions DELAY (columns out) →
  ∃ p, q = S p ∧ p ∈ Pandas.positions DELAY (icolumns n).
Proof.
  intros H Hd Hr Hq.
  apply new_rows_with_delay_shape in H as [[_ ->]|(_ & Hn & Hc & _)].
  - by apply elem_of_nil in Hr.
  - rewrite Hc in Hq. apply positions_elem in Hq.
    destruct q as [|p]; simpl in Hq.
    + injection Hq as Hq. exfalso. apply Hn. by rewrite Hq.
    + exists p. split; [done|]. by apply positions_elem.
Qed.

Lemma added_delay_rows_keys (o n : IndexedFrame) (out : DataFrame) :
  _new_rows_with_delay o n = Ok out →
  ∀ r, r ∈ rows out →
    ∃ k, row_key r = Some (VStr k) ∧ k ∈ index n ∧ (k ∉ index o).
Proof.
  intros H r Hr.
  destruct (shape_rows_keys o n out r H Hr) as (kr & Hin & Hk & Hkey & _).
  exists kr.1. split; [done|]. by apply added_keys_elem.
Qed.

(** C1. The rows of the added-delay table have keys that the new table
    has and the old table has not; when the new table has a
    [Delay (days)] column, the delay of every output row, coerced to a
    number with missing or non-numeric cells counting as 0, is greater than
    0; and the output lacks the [Delay (days)] column only if the new table
    lacks it. *)
Theorem added_delay_invariant (o n : IndexedFrame) (out : DataFrame) :
  _new_rows_with_delay o n = Ok out →
  (∀ r, r ∈ rows out →
     ∃ k, row_key r = Some (VStr k) ∧ k ∈ index n ∧ (k ∉ index o))
  ∧ (DELAY ∈ icolumns n →
     ∀ r q, r ∈ rows out → q ∈ Pandas.positions DELAY (columns out) →
       Pandas.gt0 (coerced_delay (Pandas.get_cell q r)) = true)
  ∧ ((DELAY ∉ columns out) → DELAY ∉ icolumns n).
Proof.
  intros H. split; [|split].
  - by apply added_delay_rows_keys.
  - intros Hd r q Hr Hq.
    destruct (shape_delay_positions o n out r q H Hd Hr Hq) as (p & -> & Hp).
    destruct (shape_rows_keys o n out r H Hr)
      as (kr & Hin & Hk & Hkey & [[Hnd _]|(p' & b & Ep & -> & Hgt)]); [done|].
    rewrite Ep in Hp. apply list_elem_of_singleton in Hp as ->.
    rewrite get_cell_restore. unfold with_numeric_delay. simpl.
    rewrite get_set_cell. by apply gt0_coerced_delay.
  - intros Hout Hd. apply Hout.
    apply new_rows_with_delay_shape in H as [[_ ->]|(_ & _ & -> & _)]; simpl.
    + right. apply list_elem_of_filter. split; [done|done].
    + by right.
Qed.

(** ** Dataset preparation *)

Lemma keep_last_map {K} `{EqDecision K} (key : list value → K)
    (f : list value → list value) (l : list (list value)) :
  Pandas.keep_last key (map f l) = map f (Pandas.keep_last (key ∘ f) l).
Proof.
  induction l as [|x l IH]; simpl; [done|].
  rewrite map_map. rewrite IH.
  destruct (decide (key (f x) ∈ map (fun y => key (f y)) l)) as [Hin|Hout].
  - rewrite decide_True; [done|]. done.
  - rewrite decide_False; [done|]. done.
Qed.

Lemma keep_last_ext {K1 K2} `{EqDecision K1} `{EqDecision K2}
    (k1 : list value → K1) (k2 : list value → K2) (l : list (list value)) :
  (∀ x y, k1 x = k1 y ↔ k2 x = k2 y) →
  Pandas.keep_last k1 l = Pandas.keep_last k2 l.
Proof.
  intros Hk. induction l as [|x l IH]; simpl; [done|].
  rewrite IH.
  assert (k1 x ∈ map k1 l ↔ k2 x ∈ map k2 l) as Hiff.
  { rewrite !list_elem_of_fmap. split; intros (y & E & Hy); exists y;
      (split; [by apply Hk | done]). }
  destruct (decide (k1 x ∈ map k1 l)) as [H1|H1].
  - rewrite decide_True; [done | by apply Hiff].
  - rewrite decide_False; [done | by rewrite <- Hiff].
Qed.

Lemma select_header_no_key (key : string) (rest cols : list string) :
  key ∉ rest →
  key ∉ flat_map (fun c => map (fun _ => c) (Pandas.positions c cols)) rest.
Proof.
  intros Hk Hin. apply list_elem_of_In, in_flat_map in Hin as (c & Hc & Hin).
  apply list_elem_of_In in Hc. apply in_map_iff in Hin as (_ & <- & _). done.
Qed.

(** [set_index] after the selection of [key :: rest]: the key column must
    be the only one with its label, and becomes the index. *)
Lemma set_index_select (key : string) (rest : list string) (df : DataFrame)
    (f : IndexedFrame) :
  key ∉ rest →
  Pandas.set_index key (Pandas.select (key :: rest) df) = Ok f →
  ∃ po, Pandas.positions key (columns df) = [po]
        ∧ index_name f = key
        ∧ (key ∉ icolumns f)
        ∧ index f = map (fun r => Pandas.key_text (Pandas.get_cell po r)) (rows df).
Proof.
  intros Hk. unfold Pandas.set_index, Pandas.select. cbn [columns rows flat_map].
  pose proof (select_header_no_key key rest (columns df) Hk) as Hno.
  set (H := flat_map _ rest) in *.
  destruct (Pandas.positions key (columns df)) as [|po [|p2 ps]] eqn:Ep.
  - cbn [map app]. apply positions_nil in Hno. rewrite Hno. done.
  - cbn [map app]. unfold Pandas.positions at 1. cbn [Pandas.positions_from].
    rewrite decide_True by done. rewrite positions_from_shift.
    pose proof Hno as Hnil.
    apply positions_nil in Hnil. unfold Pandas.positions in Hnil. rewrite Hnil.
    cbn [map]. intros [= <-]. exists po. split; [done|]. split; [done|].
    split; [done|]. unfold index. cbn [irows]. rewrite !map_map.
    apply map_ext. intros r. done.
  - cbn [map app]. unfold Pandas.positions at 1. cbn [Pandas.positions_from].
    rewrite !decide_True by done. done.
Qed.

Lemma set_index_outcome (key : string) (df : DataFrame) :
  (∃ f, Pandas.set_index key df = Ok f)
  ∨ ∃ msg, Pandas.set_index key df = Raise (ValueError msg).
Proof.
  unfold Pandas.set_index.
  destruct (Pandas.positions key (columns df)) as [|p [|p2 ps]]; eauto.
Qed.

(** The label list that [_prepare] selects: the key, then the other
    common labels. *)
Lemma common_cols_key_first (key : string) (old_cols new_cols : list string) :
  key ∈ old_cols → key ∈ new_cols →
  let common :=
    Py.sorted (elements ((list_to_set new_cols : gset string)
                         ∩ list_to_set old_cols)) in
  (if decide (key ∈ common) then key :: filter (fun c => c ≠ key) common
   else common) = key :: filter (fun c => c ≠ key) common
  ∧ (key ∉ filter (fun c => c ≠ key) common).
Proof.
  forget_runtime.
  intros Ho Hn common. split.
  - rewrite decide_True; [done|].
    unfold common. rewrite sorted_elem, elem_of_elements. set_solver.
  - intros [? _]%list_elem_of_filter. done.
Qed.

Lemma prepared_index (key : string) (rest : list string) (df : DataFrame)
    (f : IndexedFrame) :
  key ∉ rest →
  Pandas.set_index key
    (Pandas.select (key :: rest)
       (Pandas.drop_duplicates key
          (Pandas.map_column key (fun v => VStr (_clean_key_value v)) df))) = Ok f →
  ∃ po, Pandas.positions key (columns df) = [po]
        ∧ index_name f = key
        ∧ (key ∉ icolumns f)
        ∧ index f = map (cleaned_key po) (Pandas.keep_last (cleaned_key po) (rows df)).
Proof.
  intros Hk H. apply set_index_select in H as (po & Ep & Hname & Hcols & Hidx); [|done].
  cbn [columns Pandas.drop_duplicates Pandas.map_column] in Ep.
  exists po. split; [done|]. split; [done|]. split; [done|].
  rewrite Hidx. unfold Pandas.drop_duplicates, Pandas.map_column.
  cbn [columns rows]. rewrite Ep. cbn [foldr].
  rewrite keep_last_map, map_map.
  rewrite (keep_last_ext _ (cleaned_key po)).
  - apply map_ext. intros r. by rewrite get_set_cell.
  - intros x y. unfold compose, Pandas.subset_key. cbn [map].
    rewrite !get_set_cell. unfold cleaned_key.
    split; [by intros [= E] | by intros ->].
Qed.

(** What a successful [_prepare] has done. *)
Lemma prepare_ok_inv (df_old df_new : DataFrame) (key : string)
    (o n : IndexedFrame) (cc : list string) :
  _prepare df_old df_new key = Ok (o, n, cc) →
  ∃ old' new' po pn,
    _ensure_item_number (_canon_columns df_old) = Ok old'
    ∧ _ensure_item_number (_canon_columns df_new) = Ok new'
    ∧ Pandas.positions key (columns old') = [po]
    ∧ Pandas.positions key (columns new') = [pn]
    ∧ index_name o = key ∧ index_name n = key
    ∧ (key ∉ icolumns o) ∧ (key ∉ icolumns n)
    ∧ index o = map (cleaned_key po) (Pandas.keep_last (cleaned_key po) (rows old'))
    ∧ index n = map (cleaned_key pn) (Pandas.keep_last (cleaned_key pn) (rows new')).
Proof.
  unfold _prepare.
  destruct (_ensure_item_number (_canon_columns df_old)) as [old'| |]; [|done..].
  destruct (_ensure_item_number (_canon_columns df_new)) as [new'| |]; [|done..].
  cbn [mbind result_bind].
  case_decide as Hmiss; [done|].
  assert (key ∈ columns old') as Ho.
  { destruct (decide (key ∈ columns old')); [done | exfalso; auto]. }
  assert (key ∈ columns new') as Hn.
  { destruct (decide (key ∈ columns new')); [done | exfalso; auto]. }
  cbn [columns Pandas.drop_duplicates Pandas.map_column].
  destruct (common_cols_key_first key (columns old') (columns new') Ho Hn) as [-> Hrest].
  set (rest := filter _ _) in *.
  destruct (Pandas.set_index key (Pandas.select (key :: rest)
              (Pandas.drop_duplicates key
                 (Pandas.map_column key (fun v => VStr (_clean_key_value v)) old'))))
    as [o'| |] eqn:Eo; cbn [mbind result_bind]; [|done..].
  destruct (Pandas.set_index key (Pandas.select (key :: rest)
              (Pandas.drop_duplicates key
                 (Pandas.map_column key (fun v => VStr (_clean_key_value v)) new'))))
    as [n'| |] eqn:En; cbn [mbind result_bind]; [|done..].
  intros [= <- <- <-].
  apply prepared_index in Eo as (po & ? & ? & ? & ?); [|done].
  apply prepared_index in En as (pn & ? & ? & ? & ?); [|done].
  exists old', new', po, pn. done.
Qed.

Lemma set_index_select_total (key : string) (rest : list string) (df : DataFrame)
    (po : nat) :
  key ∉ rest → Pandas.positions key (columns df) = [po] →
  ∃ f, Pandas.set_index key (Pandas.select (key :: rest) df) = Ok f.
Proof.
  intros Hk Ep. unfold Pandas.set_index, Pandas.select. cbn [columns rows flat_map].
  pose proof (select_header_no_key key rest (columns df) Hk) as Hno.
  set (H := flat_map _ rest) in *.
  apply positions_nil in Hno. unfold Pandas.positions in Hno.
  rewrite Ep. cbn [map app]. unfold Pandas.positions at 1.
  cbn [Pandas.positions_from]. rewrite decide_True by done.
  rewrite positions_from_shift, Hno. cbn [map]. eauto.
Qed.

(** [_prepare] returns its tables whenever the key labels exactly one
    column of each canonicalised table. *)
Lemma prepare_total (df_old df_new : DataFrame) (key : string)
    (old' new' : DataFrame) (po pn : nat) :
  _ensure_item_number (_canon_columns df_old) = Ok old' →
  _ensure_item_number (_canon_columns df_new) = Ok new' →
  Pandas.positions key (columns old') = [po] →
  Pandas.positions key (columns new') = [pn] →
  ∃ o n cc, _prepare df_old df_new key = Ok (o, n, cc).
Proof.
  forget_runtime. intros Eo En Ho Hn. unfold _prepare. rewrite Eo, En. cbn [mbind result_bind].
  assert (key ∈ columns old') as Hko.
  { destruct (decide (key ∈ columns old')) as [|Hno]; [done|].
    apply positions_nil in Hno. congruence. }
  assert (key ∈ columns new') as Hkn.
  { destruct (decide (key ∈ columns new')) as [|Hno]; [done|].
    apply positions_nil in Hno. congruence. }
  rewrite decide_False by tauto.
  cbn [columns Pandas.drop_duplicates Pandas.map_column].
  destruct (common_cols_key_first key (columns old') (columns new') Hko Hkn)
    as [-> Hrest].
  set (rest := filter _ _) in *.
  destruct (set_index_select_total key rest
              (Pandas.drop_duplicates key
                 (Pandas.map_column key (fun v => VStr (_clean_key_value v)) old'))
              po Hrest Ho) as [o ->].
  cbn [mbind result_bind].
  destruct (set_index_select_total key rest
              (Pandas.drop_duplicates key
                 (Pandas.map_column key (fun v => VStr (_clean_key_value v)) new'))
              pn Hrest Hn) as [n ->].
  cbn [mbind result_bind]. eauto.
Qed.

Lemma prepare_index_NoDup (df_old df_new : DataFrame) (key : string)
    (o n : IndexedFrame) (cc : list string) :
  _prepare df_old df_new key = Ok (o, n, cc) →
  NoDup (index o) ∧ NoDup (index n)
  ∧ (index_name o ∉ icolumns o) ∧ (index_name n ∉ icolumns n).
Proof.
  intros H. apply prepare_ok_inv in H
    as (old' & new' & po & pn & _ & _ & _ & _ & -> & -> & ? & ? & -> & ->).
  repeat split; try done; apply keep_last_NoDup.
Qed.

(** ** Rows that are new, on prepared tables *)

Lemma NoDup_fst_unique {A B} (l : list (A * B)) (k : A) (c1 c2 : B) :
  NoDup (map fst l) → (k, c1) ∈ l → (k, c2) ∈ l → c1 = c2.
Proof.
  induction l as [|[k' c'] l IH]; simpl; intros Hnd H1 H2.
  - by apply elem_of_nil in H1.
  - apply NoDup_cons in Hnd as [Hk Hnd].
    apply elem_of_cons in H1 as [E1|H1]; apply elem_of_cons in H2 as [E2|H2].
    + congruence.
    + injection E1 as -> ->. exfalso. apply Hk.
      apply list_elem_of_fmap. by exists (k', c2).
    + injection E2 as -> ->. exfalso. apply Hk.
      apply list_elem_of_fmap. by exists (k', c1).
    + by apply IH.
Qed.

Lemma filter_unique_key {B} (l : list (string * B)) (k : string) (c : B) :
  NoDup (map fst l) → (k, c) ∈ l → filter (fun kr => kr.1 = k) l = [(k, c)].
Proof.
  induction l as [|[k' c'] l IH]; simpl; intros Hnd Hin.
  - by apply elem_of_nil in Hin.
  - apply NoDup_cons in Hnd as [Hk Hnd].
    apply elem_of_cons in Hin as [E|Hin].
    + injection E as <- <-. rewrite filter_cons_True by done. f_equal.
      apply filter_none. intros [k2 c2] H2 E2. simpl in E2. subst k2.
      apply Hk. apply list_elem_of_fmap. by exists (k, c2).
    + rewrite filter_cons_False; [by apply IH|].
      simpl. intros ->. apply Hk. apply list_elem_of_fmap. by exists (k, c).
Qed.

Lemma loc_index (ks : list string) (f : IndexedFrame) :
  NoDup (index f) → (∀ k, k ∈ ks → k ∈ index f) →
  index (Pandas.loc ks f) = ks.
Proof.
  intros Hnd. unfold index, Pandas.loc. cbn [irows].
  induction ks as [|k ks IH]; intros Hks; cbn [flat_map]; [done|].
  rewrite map_app, IH by (intros; apply Hks; by right).
  assert (k ∈ map fst (irows f)) as Hk by (apply Hks; by left).
  apply list_elem_of_fmap in Hk as ([k' c] & E & Hin). simpl in E. subst k'.
  by rewrite (filter_unique_key _ k c).
Qed.

Lemma filter_map {A B} (P : B → Prop) `{∀ y, Decision (P y)} (f : A → B)
    (l : list A) :
  filter P (map f l) = map f (filter (fun x => P (f x)) l).
Proof.
  induction l as [|x l IH]; simpl; [done|].
  rewrite !filter_cons. case_decide; simpl; by rewrite IH.
Qed.

Lemma new_rows_without_delay (o n : IndexedFrame) :
  (DELAY ∉ icolumns n) → (index_name n ∉ icolumns n) →
  ∃ out, _new_rows_with_delay o n = Ok out
         ∧ rows out = map Pandas.restore_key (irows (Pandas.loc (added_keys o n) n)).
Proof.
  intros Hd Hn. unfold _new_rows_with_delay.
  destruct (added_keys o n) as [|k ks] eqn:Ek.
  - eexists. split; [done|]. done.
  - cbn [icolumns Pandas.loc].
    rewrite decide_False by done. cbn [mbind result_bind].
    unfold Pandas.reset_index. cbn [icolumns index_name irows].
    rewrite decide_False by done. eexists. split; [done|]. done.
Qed.

(** C5. When the new table has no [Delay (days)] column, the output
    holds exactly the rows of the new table whose key the old table lacks:
    one row for each such key, nothing filtered. *)
Theorem no_delay_column_keeps_all_new_rows (df_old df_new : DataFrame)
    (key : string) (o n : IndexedFrame) (cc : list string) :
  _prepare df_old df_new key = Ok (o, n, cc) →
  (DELAY ∉ icolumns n) →
  ∃ out, _new_rows_with_delay o n = Ok out
    ∧ rows out ≡ₚ map Pandas.restore_key
                    (filter (fun kr => kr.1 ∉ index o) (irows n))
    ∧ map row_key (rows out) = map (fun k => Some (VStr k)) (added_keys o n)
    ∧ ∀ k, k ∈ index n → (k ∉ index o) →
        ∃ cells, (k, cells) ∈ irows n
          ∧ filter (fun r => row_key r = Some (VStr k)) (rows out)
            = [VStr k :: cells].
Proof.
  intros Hp Hd.
  destruct (prepare_index_NoDup _ _ _ _ _ _ Hp) as (_ & Hnd & _ & Hn).
  destruct (new_rows_without_delay o n Hd Hn) as (out & Hout & Hrows).
  exists out. split; [done|]. rewrite Hrows.
  set (L := Pandas.loc (added_keys o n) n).
  assert (index L = added_keys o n) as HL.
  { apply loc_index; [done|]. intros k Hk. by apply added_keys_elem in Hk as [? _]. }
  split; [|split].
  - apply fmap_Permutation. apply NoDup_Permutation.
    + apply (NoDup_fmap_1 fst). change (NoDup (index L)).
      rewrite HL. apply added_keys_NoDup.
    + apply NoDup_filter. by apply (NoDup_fmap_1 fst).
    + intros kr. unfold L.
      rewrite loc_rows_elem, added_keys_elem, list_elem_of_filter.
      split; [naive_solver|]. intros [Ho Hin]. split; [|done]. split; [|done].
      apply list_elem_of_fmap. by exists kr.
  - rewrite map_map. rewrite <- HL. unfold index. rewrite map_map. done.
  - intros k Hk Hko.
    apply list_elem_of_fmap in Hk as ([k' cells] & E & Hin). simpl in E. subst k'.
    exists cells. split; [done|].
    rewrite filter_map.
    rewrite (list_filter_iff _ (fun kr => kr.1 = k)).
    2:{ intros [k2 c2]. unfold row_key, Pandas.restore_key. simpl.
        split; [by intros [= ->] | by intros ->]. }
    rewrite (filter_unique_key _ k cells); [done | |].
    + change (NoDup (index L)). rewrite HL. apply added_keys_NoDup.
    + unfold L. apply loc_rows_elem. split; [|done].
      apply added_keys_elem. split; [|done].
      apply list_elem_of_fmap. by exists (k, cells).
Qed.

(** C10. When the new table has a [Delay (days)] column, that column of
    the output holds the coerced numbers, not the original cells: every
    output row has a number greater than 0 there, obtained from the cell of
    its row in the new table, and a new row whose delay is missing or not
    numeric does not reach the output. *)
Theorem delay_column_holds_coerced_numbers (df_old df_new : DataFrame)
    (key : string) (o n : IndexedFrame) (cc : list string) (out : DataFrame) :
  _prepare df_old df_new key = Ok (o, n, cc) →
  DELAY ∈ icolumns n →
  _new_rows_with_delay o n = Ok out →
  (∀ r q, r ∈ rows out → q ∈ Pandas.positions DELAY (columns out) →
     is_number (Pandas.get_cell q r)
     ∧ Pandas.gt0 (Pandas.get_cell q r) = true
     ∧ ∃ k cells p all_int,
         (k, cells) ∈ irows n
         ∧ Pandas.positions DELAY (icolumns n) = [p]
         ∧ row_key r = Some (VStr k)
         ∧ Pandas.get_cell q r = numeric_cell all_int (Pandas.get_cell p cells))
  ∧ (∀ k cells p, (k, cells) ∈ irows n → (k ∉ index o) →
       p ∈ Pandas.positions DELAY (icolumns n) →
       not_numeric (Pandas.get_cell p cells) →
       ∀ r, r ∈ rows out → row_key r ≠ Some (VStr k)).
Proof.
  intros Hp Hd H.
  destruct (prepare_index_NoDup _ _ _ _ _ _ Hp) as (_ & Hnd & _ & Hn).
  split.
  - intros r q Hr Hq.
    destruct (shape_delay_positions o n out r q H Hd Hr Hq) as (p & -> & Hpos).
    destruct (shape_rows_keys o n out r H Hr)
      as ([k cells] & Hin & Hk & Hkey & [[Hnd' _]|(p' & b & Ep & -> & Hgt)]); [done|].
    rewrite Ep in Hpos. apply list_elem_of_singleton in Hpos as ->.
    rewrite get_cell_restore. unfold with_numeric_delay. cbn [fst snd].
    rewrite get_set_cell. split; [apply numeric_cell_number|]. split; [done|].
    exists k, cells, p', b. done.
  - intros k cells p Hin Hko Hpos Hnn r Hr Hkey.
    destruct (shape_rows_keys o n out r H Hr)
      as ([k' cells'] & Hin' & Hk & Hkey' & [[Hnd' _]|(p' & b & Ep & -> & Hgt)]);
      [done|].
    rewrite Hkey in Hkey'. injection Hkey' as <-.
    rewrite Ep in Hpos. apply list_elem_of_singleton in Hpos as ->.
    assert (cells = cells') as <- by (eapply NoDup_fst_unique; eauto).
    simpl in Hgt. rewrite numeric_cell_not_numeric in Hgt; done.
Qed.




Lemma set_index_no_key_error (key : string) (df : DataFrame) :
  no_key_error (Pandas.set_index key df).
Proof.
  intros msg. by destruct (set_index_outcome key df) as [[f ->]|[m ->]].
Qed.

Lemma no_key_error_bind {A B} (r : result A) (k : A → result B) :
  no_key_error r → (∀ a, no_key_error (k a)) → no_key_error (r ≫= k).
Proof.
  intros Hr Hk msg. destruct r as [a|e|]; cbn [mbind result_bind].
  - apply Hk.
  - intros [= ->]. by apply (Hr msg).
  - done.
Qed.

(** C2. After canonicalisation and the [Number] fallback on both tables:
    if the key column is missing from either, [_prepare] raises the
    [KeyError] whose message names the key and lists the columns of both
    tables, and the comparison produces nothing; if the key column is in
    both, [_prepare] does not raise a [KeyError]. *)
Theorem missing_key_column_raises (df_old df_new : DataFrame) (key : string)
    (old' new' : DataFrame) :
  _ensure_item_number (_canon_columns df_old) = Ok old' →
  _ensure_item_number (_canon_columns df_new) = Ok new' →
  ((key ∉ columns old') ∨ (key ∉ columns new') →
     _prepare df_old df_new key
     = Raise (KeyError
         ("Kolom '" +:+ key +:+ "' ontbreekt in " +:+ E_ACUTE +:+ E_ACUTE
          +:+ "n van de bestanden." +:+ NL
          +:+ "Oud kolommen: " +:+ Py.repr_list (columns old') +:+ NL
          +:+ "Nieuw kolommen: " +:+ Py.repr_list (columns new')))
     ∧ (key = "Item number" →
        ∀ uuid h, vergelijk uuid df_old df_new h
                  = Raise (KeyError (missing_key_message key (columns old')
                                       (columns new')))))
  ∧ (key ∈ columns old' → key ∈ columns new' →
     no_key_error (_prepare df_old df_new key)).
Proof.
  intros Eo En.
  assert ((key ∉ columns old') ∨ (key ∉ columns new') →
          _prepare df_old df_new key
          = Raise (KeyError (missing_key_message key (columns old') (columns new'))))
    as Hraise.
  { intros Hmiss. unfold _prepare. rewrite Eo, En. cbn [mbind result_bind].
    by rewrite decide_True. }
  split.
  - intros Hmiss. split; [by apply Hraise|].
    intros -> uuid h. unfold vergelijk, mbind, M_bind, lift.
    by rewrite (Hraise Hmiss).
  - intros Ho Hn. unfold _prepare. rewrite Eo, En. cbn [mbind result_bind].
    rewrite decide_False by tauto.
    apply no_key_error_bind; [apply set_index_no_key_error|]. intros fo.
    apply no_key_error_bind; [apply set_index_no_key_error|]. intros fn.
    by intros msg.
Qed.

(** ** Frames as objects: the effect of each operation on the store *)

Lemma bind_ok_inv {A B} (m : M A) (k : A → M B) (h h' : heap) (b : B) :
  (m ≫= k) h = Ok (b, h') →
  ∃ a h1, m h = Ok (a, h1) ∧ k a h1 = Ok (b, h').
Proof.
  unfold mbind, M_bind. destruct (m h) as [[a h1]| |]; [|done..].
  intros H. by exists a, h1.
Qed.

Lemma load_ok_inv (l : loc) (h h' : heap) (o : pyobj) :
  load l h = Ok (o, h') → h !! l = Some o ∧ h' = h.
Proof. unfold load. destruct (h !! l); [|done]. by intros [= -> ->]. Qed.

Lemma lift_ok_inv {A} (r : result A) (h h' : heap) (a : A) :
  lift r h = Ok (a, h') → r = Ok a ∧ h' = h.
Proof. unfold lift. destruct r; [|done..]. by intros [= -> ->]. Qed.

Lemma reset_index_ok_inv (l l' : loc) (h h' : heap) :
  reset_index l h = Ok (l', h') →
  ∃ o df, h !! l = Some o ∧ reset_index_obj o = Ok df
          ∧ l' = length h ∧ h' = h ++ [OFrame df].
Proof.
  unfold reset_index. intros H.
  apply bind_ok_inv in H as (o & h1 & [Ho ->]%load_ok_inv & H).
  apply bind_ok_inv in H as (df & h2 & [Hdf ->]%lift_ok_inv & H).
  unfold alloc in H. injection H as <- <-. by exists o, df.
Qed.

Lemma excel_safe_headers_run (l : loc) (h : heap) (o : pyobj) (out : list string) :
  h !! l = Some o → safe_headers (obj_columns o) = Ok out →
  length out = length (obj_columns o) →
  _excel_safe_headers l h = Ok (length h, h ++ [with_columns out o]).
Proof.
  intros Ho Hout Hlen.
  unfold _excel_safe_headers, copy, assign_columns, mbind, M_bind, load, lift,
    alloc, store, mret, M_ret.
  rewrite Ho, Hout. cbv beta iota. rewrite Ho. cbv beta iota.
  rewrite lookup_app_r by lia. rewrite Nat.sub_diag. cbn [lookup list_lookup].
  cbv beta iota. rewrite decide_True by done.
  rewrite insert_app_r_alt by lia. rewrite Nat.sub_diag. done.
Qed.

Lemma safe_headers_length (cols out : list string) :
  safe_headers cols = Ok out → length out = length cols.
Proof.
  unfold safe_headers. intros H.
  destruct (safe_header_loop_spec (map Some cols) 1 ∅) as (out' & E & Hlen & _).
  rewrite H in E. injection E as <-. by rewrite length_map in Hlen.
Qed.

Lemma excel_safe_headers_ok_inv (l l' : loc) (h h' : heap) :
  _excel_safe_headers l h = Ok (l', h') →
  ∃ o out, h !! l = Some o ∧ safe_headers (obj_columns o) = Ok out
           ∧ l' = length h ∧ h' = h ++ [with_columns out o].
Proof.
  intros H. pose proof H as H0. unfold _excel_safe_headers in H.
  apply bind_ok_inv in H as (o & h1 & [Ho ->]%load_ok_inv & H).
  apply bind_ok_inv in H as (out & h2 & [Hout ->]%lift_ok_inv & _).
  rewrite (excel_safe_headers_run l h o out Ho Hout) in H0
    by (by apply safe_headers_length).
  injection H0 as <- <-. by exists o, out.
Qed.

(** What a successful export has done, step by step. *)
Lemma to_excel_bytes_ok_inv (uuid : string → string) (lo ln la : loc)
    (h h' : heap) (wb : Workbook) (o1 o2 o3 : pyobj) :
  h !! lo = Some o1 → h !! ln = Some o2 → h !! la = Some o3 →
  to_excel_bytes uuid lo ln la h = Ok (wb, h') →
  ∃ r1 r2 out1 out2 out3 s1 s2 s3,
    reset_index_obj o1 = Ok r1 ∧ reset_index_obj o2 = Ok r2
    ∧ safe_headers (columns r1) = Ok out1
    ∧ safe_headers (columns r2) = Ok out2
    ∧ safe_headers (obj_columns o3) = Ok out3
    ∧ to_excel (OFrame (mkDF out1 (rows r1))) "Oude_invoer" = Ok s1
    ∧ to_excel (OFrame (mkDF out2 (rows r2))) "Nieuwe_invoer" = Ok s2
    ∧ to_excel (with_columns out3 o3) "Nieuwe_rijen_Delay_gt_0" = Ok s3
    ∧ foldl (fun wb s => wb ← wb; add_table uuid wb s) (Ok [s1; s2; s3]) SHEETS
      = Ok wb
    ∧ h' = h ++ [OFrame r1; OFrame (mkDF out1 (rows r1));
                 OFrame r2; OFrame (mkDF out2 (rows r2));
                 with_columns out3 o3].
Proof.
  intros Ho1 Ho2 Ho3. unfold to_excel_bytes. intros H.
  apply bind_ok_inv in H as (l1 & h1 & H1 & H).
  apply reset_index_ok_inv in H1 as (x1 & r1 & Hx1 & Hr1 & -> & ->).
  rewrite Ho1 in Hx1. injection Hx1 as <-.
  apply bind_ok_inv in H as (l2 & h2 & H2 & H).
  apply excel_safe_headers_ok_inv in H2 as (y1 & out1 & Hy1 & Hout1 & -> & ->).
  rewrite lookup_app_r in Hy1 by lia. rewrite Nat.sub_diag in Hy1.
  injection Hy1 as <-. cbn [obj_columns with_columns] in *.
  apply bind_ok_inv in H as (l3 & h3 & H3 & H).
  apply reset_index_ok_inv in H3 as (x2 & r2 & Hx2 & Hr2 & -> & ->).
  rewrite <- !app_assoc in Hx2.
  rewrite (lookup_app_l_Some _ _ _ _ Ho2) in Hx2. injection Hx2 as <-.
  apply bind_ok_inv in H as (l4 & h4 & H4 & H).
  apply excel_safe_headers_ok_inv in H4 as (y2 & out2 & Hy2 & Hout2 & -> & ->).
  rewrite lookup_app_r in Hy2 by lia. rewrite Nat.sub_diag in Hy2.
  injection Hy2 as <-. cbn [obj_columns with_columns] in *.
  apply bind_ok_inv in H as (l5 & h5 & H5 & H).
  apply excel_safe_headers_ok_inv in H5 as (x3 & out3 & Hx3 & Hout3 & -> & ->).
  rewrite <- !app_assoc in Hx3.
  rewrite (lookup_app_l_Some _ _ _ _ Ho3) in Hx3. injection Hx3 as <-.
  apply bind_ok_inv in H as (z1 & h6 & [Hz1 ->]%load_ok_inv & H).
  apply bind_ok_inv in H as (s1 & h7 & [Hs1 ->]%lift_ok_inv & H).
  apply bind_ok_inv in H as (z2 & h8 & [Hz2 ->]%load_ok_inv & H).
  apply bind_ok_inv in H as (s2 & h9 & [Hs2 ->]%lift_ok_inv & H).
  apply bind_ok_inv in H as (z3 & h10 & [Hz3 ->]%load_ok_inv & H).
  apply bind_ok_inv in H as (s3 & h11 & [Hs3 ->]%lift_ok_inv & H).
  apply lift_ok_inv in H as [Hwb ->].
  rewrite <- !app_assoc in Hz1, Hz2, Hz3. cbn [app] in Hz1, Hz2, Hz3.
  rewrite !length_app in Hz1, Hz2, Hz3. cbn [length] in Hz1, Hz2, Hz3.
  rewrite lookup_app_r in Hz1, Hz2, Hz3 by lia.
  match type of Hz1 with context [?a - ?b] =>
    replace (a - b) with 1 in Hz1 by lia end.
  match type of Hz2 with context [?a - ?b] =>
    replace (a - b) with 3 in Hz2 by lia end.
  match type of Hz3 with context [?a - ?b] =>
    replace (a - b) with 4 in Hz3 by lia end.
  cbn in Hz1, Hz2, Hz3. injection Hz1 as <-. injection Hz2 as <-.
  injection Hz3 as <-.
  exists r1, r2, out1, out2, out3, s1, s2, s3.
  repeat (split; [done|]). by rewrite <- !app_assoc.
Qed.

Lemma sub_bad_chars_id (s : string) : no_bad_char s → sub_bad_chars s = s.
Proof.
  induction s as [|c s IH]; intros Hs; simpl; [done|].
  rewrite (Hs c) by (simpl; by left).
  rewrite IH; [done|]. intros x Hx. apply Hs. simpl. by right.
Qed.

Lemma header_base_blank (i : nat) (c : string) :
  Py.strip c = "" → header_base i (Some c) = "Column" +:+ Py.str_nat i.
Proof.
  intros E. unfold header_base. rewrite E. rewrite decide_True by done.
  apply sub_bad_chars_id. apply no_bad_char_append; [|apply str_nat_no_bad].
  intros x Hx. simpl in Hx.
  repeat (apply elem_of_cons in Hx as [->|Hx]; [by vm_compute|]).
  by apply elem_of_nil in Hx.
Qed.

Lemma header_base_text (i : nat) (c : string) :
  Py.strip c ≠ "" → header_base i (Some c) = sub_bad_chars (Py.strip c).
Proof. intros E. unfold header_base. by rewrite decide_False. Qed.

(** C6. Header sanitation always yields a header list of the same length
    in which no name is empty, no two names are equal and no name has one
    of the characters [[ ] : * ? \ /]. Column [i] (from 1) starts from
    [Column<i>] when blank and from its trimmed text otherwise, with the
    illegal characters replaced by [_]; it keeps that name if no earlier
    column has it, and else takes the first of [_2], [_3], ... that is
    free. The export header of a frame is this list, set on a copy. *)
Theorem excel_safe_headers_guarantees (cols : list string) :
  ∃ out, safe_headers cols = Ok out
    ∧ length out = length cols
    ∧ Forall (fun x => x ≠ "") out
    ∧ NoDup out
    ∧ Forall no_bad_char out
    ∧ (∀ j c name, cols !! j = Some c → out !! j = Some name →
         (Py.strip c = "" → header_base (S j) (Some c) = "Column" +:+ Py.str_nat (S j))
         ∧ (Py.strip c ≠ "" → header_base (S j) (Some c) = sub_bad_chars (Py.strip c))
         ∧ ∃ m, 1 ≤ m
             ∧ name = suffixed (header_base (S j) (Some c)) m
             ∧ (name ∉ take j out)
             ∧ ∀ q, 1 ≤ q < m → suffixed (header_base (S j) (Some c)) q ∈ take j out)
    ∧ (∀ (h : heap) df o, h !! df = Some o → obj_columns o = cols →
         _excel_safe_headers df h = Ok (length h, h ++ [with_columns out o])).
Proof.
  unfold safe_headers.
  destruct (safe_header_loop_spec (map Some cols) 1 ∅)
    as (out & E & Hlen & Hnd & Hall & Hstep).
  rewrite length_map in Hlen.
  exists out. split; [done|]. split; [done|].
  split; [apply Forall_forall; intros x Hx; by apply Hall|].
  split; [done|].
  split; [apply Forall_forall; intros x Hx; by apply Hall|].
  split.
  - intros j c name Hc Hn.
    split; [apply header_base_blank|]. split; [apply header_base_text|].
    destruct (Hstep j (Some c) name) as (m & Hm & Hname & _ & Hfresh & Hq);
      [by rewrite list_lookup_fmap, Hc | done |].
    exists m. split; [done|]. split; [done|]. split; [done|].
    intros q Hq'. destruct (Hq q Hq') as [H0|H0]; [|done].
    by apply elem_of_empty in H0.
  - intros h df o Ho Hcols. apply excel_safe_headers_run; [done | |].
    + unfold safe_headers. by rewrite Hcols.
    + by rewrite Hcols.
Qed.

(** C9. The export leaves every frame that existed before the call as it
    was, the three tables it is given among them: the sanitised headers
    are set on copies only. *)
Theorem export_leaves_tables_unchanged (uuid : string → string) (lo ln la : loc)
    (h h' : heap) (wb : Workbook) (o1 o2 o3 : pyobj) :
  h !! lo = Some o1 → h !! ln = Some o2 → h !! la = Some o3 →
  to_excel_bytes uuid lo ln la h = Ok (wb, h') →
  h' !! lo = Some o1 ∧ h' !! ln = Some o2 ∧ h' !! la = Some o3
  ∧ ∀ l o, h !! l = Some o → h' !! l = Some o.
Proof.
  intros Ho1 Ho2 Ho3 H.
  destruct (to_excel_bytes_ok_inv _ _ _ _ _ _ _ _ _ _ Ho1 Ho2 Ho3 H)
    as (r1 & r2 & out1 & out2 & out3 & s1 & s2 & s3 & _ & _ & _ & _ & _ & _ & _ & _
        & _ & ->).
  repeat split; try intros l o Hl; by apply lookup_app_l_Some.
Qed.

(** ** The workbook *)

Lemma to_excel_ok_inv (o : pyobj) (name : string) (ws : Worksheet) :
  to_excel o name = Ok ws →
  ws = mkSheet name (sheet_cells (obj_columns o) (obj_rows o)) []
  ∧ (Z.of_nat (length (obj_columns o)) ≤ 16384)%Z.
Proof.
  unfold to_excel. case_decide as Hbig; [done|]. intros [= <-].
  split; [done|]. lia.
Qed.


Lemma sheet_cells_empty (name : string) (rws : list (list value)) (ts : list Table) :
  max_row (mkSheet name (sheet_cells [] rws) ts) = 1.
Proof. done. Qed.

Lemma get_column_letter_ok (n : nat) :
  1 ≤ n → (Z.of_nat n ≤ 16384)%Z → ∃ s, get_column_letter n = Ok s.
Proof.
  intros H1 H2. unfold get_column_letter.
  rewrite decide_False by lia. repeat case_decide; eauto.
Qed.

Lemma table_name_oud (u : string) :
  _safe_table_name u "Oude_invoer" = "Oude_invoer_" +:+ Py.prefix 8 u.
Proof. reflexivity. Qed.

Lemma table_name_nieuw (u : string) :
  _safe_table_name u "Nieuwe_invoer" = "Nieuwe_invoer_" +:+ Py.prefix 8 u.
Proof. reflexivity. Qed.

Lemma table_name_rijen (u : string) :
  _safe_table_name u "Nieuwe_rijen_Delay_gt_0"
  = "Nieuwe_rijen_Delay_gt_0_" +:+ Py.prefix 8 u.
Proof. reflexivity. Qed.

(** One call of [add_table] on a sheet that has no table yet and whose
    table name is not in use. *)
Lemma add_table_step (uuid : string → string) (wb wb' : Workbook) (i : nat)
    (ws : Worksheet) :
  list_find (fun w => title w = title ws) wb = Some (i, ws) →
  tables ws = [] →
  _safe_table_name (uuid (title ws)) (title ws) ∉ table_names wb →
  add_table uuid wb (title ws) = Ok wb' →
  ∃ ts, wb' = <[i := mkSheet (title ws) (cells ws) ts]> wb
        ∧ table_rule uuid ws ts.
Proof.
  intros Hfind Ht Hname. unfold add_table, table_rule. rewrite Hfind.
  case_decide as Hc.
  - destruct (get_column_letter (max_column ws)) as [l| |] eqn:El;
      cbn [mbind result_bind]; [|done..].
    rewrite decide_False by done. intros [= <-].
    exists [table_for uuid ws l]. rewrite Ht. split; [done|]. by exists l.
  - intros [= <-]. exists []. split; [|done].
    rewrite <- Ht. destruct ws. cbn.
    apply list_find_Some in Hfind as (Hl & _). by rewrite list_insert_id.
Qed.

Lemma table_rule_names (uuid : string → string) (ws : Worksheet)
    (ts : list Table) (x : string) :
  table_rule uuid ws ts → x ∈ map displayName ts →
  x = _safe_table_name (uuid (title ws)) (title ws).
Proof.
  unfold table_rule. case_decide.
  - intros (l & _ & ->). cbn. by intros ->%list_elem_of_singleton.
  - intros ->. cbn. by intros ?%elem_of_nil.
Qed.

Lemma add_tables_three (uuid : string → string) (c1 c2 c3 : list (list value))
    (wb : Workbook) :
  foldl (fun wb s => wb ← wb; add_table uuid wb s)
        (Ok [mkSheet "Oude_invoer" c1 []; mkSheet "Nieuwe_invoer" c2 [];
             mkSheet "Nieuwe_rijen_Delay_gt_0" c3 []]) SHEETS = Ok wb →
  ∃ t1 t2 t3,
    wb = [mkSheet "Oude_invoer" c1 t1; mkSheet "Nieuwe_invoer" c2 t2;
          mkSheet "Nieuwe_rijen_Delay_gt_0" c3 t3]
    ∧ table_rule uuid (mkSheet "Oude_invoer" c1 []) t1
    ∧ table_rule uuid (mkSheet "Nieuwe_invoer" c2 []) t2
    ∧ table_rule uuid (mkSheet "Nieuwe_rijen_Delay_gt_0" c3 []) t3.
Proof.
  cbn [foldl SHEETS mbind result_bind].
  set (s1 := mkSheet "Oude_invoer" c1 []).
  set (s2 := mkSheet "Nieuwe_invoer" c2 []).
  set (s3 := mkSheet "Nieuwe_rijen_Delay_gt_0" c3 []).
  destruct (add_table uuid [s1; s2; s3] "Oude_invoer") as [wb1| |] eqn:E1;
    [|done..].
  apply (add_table_step uuid _ _ 0 s1) in E1 as (t1 & -> & R1);
    [|apply list_find_Some; split; [done|]; split; [done|]; intros j y _ Hj; lia
     | done | cbn; apply not_elem_of_nil].
  cbn [list_insert insert title cells s1 mbind result_bind].
  destruct (add_table uuid _ "Nieuwe_invoer") as [wb2| |] eqn:E2;
    cbn [mbind result_bind]; [|done..].
  apply (add_table_step uuid _ _ 1 s2) in E2 as (t2 & -> & R2); [|  | done | ].
  2:{ apply list_find_Some. split; [done|]. split; [done|].
      intros [|j] y Hy Hj; [|lia]. injection Hy as <-. done. }
  2:{ cbn [table_names flat_map tables map app title s2].
      rewrite app_nil_r, table_name_nieuw. intros Hin.
      apply (table_rule_names _ _ _ _ R1) in Hin.
      cbn [title s1] in Hin. by rewrite table_name_oud in Hin. }
  cbn [list_insert insert title cells s2 mbind result_bind].
  intros E3.
  apply (add_table_step uuid _ _ 2 s3) in E3 as (t3 & -> & R3); [|  | done | ].
  2:{ apply list_find_Some. split; [done|]. split; [done|].
      intros [|[|j]] y Hy Hj; [| |lia]; injection Hy as <-; done. }
  2:{ cbn [table_names flat_map tables map app title s3].
      rewrite app_nil_r, table_name_rijen. intros Hin.
      apply elem_of_app in Hin as [Hin|Hin].
      - apply (table_rule_names _ _ _ _ R1) in Hin.
        cbn [title s1] in Hin. by rewrite table_name_oud in Hin.
      - apply (table_rule_names _ _ _ _ R2) in Hin.
        cbn [title s2] in Hin. by rewrite table_name_nieuw in Hin. }
  exists t1, t2, t3. done.
Qed.




(** The delta filter returns a table whenever the key label is not also a
    column and at most one column is labelled [Delay (days)]. *)
Lemma new_rows_with_delay_total (o n : IndexedFrame) :
  (index_name n ∉ icolumns n) →
  length (Pandas.positions DELAY (icolumns n)) ≤ 1 →
  ∃ out, _new_rows_with_delay o n = Ok out.
Proof.
  intros Hn Hd. unfold _new_rows_with_delay.
  destruct (added_keys o n) as [|k ks]; [eauto|].
  cbn [icolumns Pandas.loc].
  destruct (decide (DELAY ∈ icolumns n)) as [Hin|Hout].
  - destruct (Pandas.positions DELAY (icolumns n)) as [|p [|p' ps]] eqn:Ep.
    + apply positions_nil in Ep. done.
    + cbn [mbind result_bind]. unfold Pandas.reset_index.
      cbn [index_name icolumns Pandas.where_gt0 Pandas.set_column].
      rewrite decide_False by done. eauto.
    + simpl in Hd. lia.
  - cbn [mbind result_bind]. unfold Pandas.reset_index.
    cbn [index_name icolumns]. rewrite decide_False by done. eauto.
Qed.

(* ===================================================================== *)
(** * Further properties of the code *)
(* ===================================================================== *)

(** ** Trimming *)

Lemma rstrip_idem (s : string) : Py.rstrip (Py.rstrip s) = Py.rstrip s.
Proof.
  induction s as [|c s IH]; [done|]. cbn [Py.rstrip].
  destruct (Py.rstrip s) as [|c' t'] eqn:E.
  - destruct (Py.isspace c) eqn:Ec; [done|]. cbn [Py.rstrip]. by rewrite Ec.
  - cbn [Py.rstrip]. cbn [Py.rstrip] in IH.
    destruct (Py.rstrip t') as [|c'' t''] eqn:E'.
    + destruct (Py.isspace c') eqn:Ec'; [done|]. by injection IH as <-.
    + rewrite IH. done.
Qed.

Lemma rstrip_head (c : ascii) (t : string) :
  Py.isspace c = false → ∃ t', Py.rstrip (String c t) = String c t'.
Proof.
  intros Hc. cbn [Py.rstrip]. destruct (Py.rstrip t); [rewrite Hc|]; eauto.
Qed.

Lemma lstrip_head (s : string) :
  Py.lstrip s = "" ∨ ∃ c t, Py.lstrip s = String c t ∧ Py.isspace c = false.
Proof.
  induction s as [|c s IH]; [by left|]. cbn [Py.lstrip].
  destruct (Py.isspace c) eqn:Ec; [done|]. right. by exists c, s.
Qed.

Lemma strip_idem (s : string) : Py.strip (Py.strip s) = Py.strip s.
Proof.
  unfold Py.strip. destruct (lstrip_head s) as [->|(c & t & -> & Hc)]; [done|].
  destruct (rstrip_head c t Hc) as [t' E]. rewrite E.
  cbn [Py.lstrip]. rewrite Hc. rewrite <- E. apply rstrip_idem.
Qed.

Lemma rstrip_no_space (s : string) :
  (∀ c, c ∈ Py.chars s → Py.isspace c = false) → Py.rstrip s = s.
Proof.
  induction s as [|c s IH]; intros Hs; [done|]. cbn [Py.rstrip].
  rewrite IH by (intros x Hx; apply Hs; simpl; by right).
  destruct s; [|done]. rewrite Hs; [done | simpl; by left].
Qed.

Lemma strip_no_space (s : string) :
  (∀ c, c ∈ Py.chars s → Py.isspace c = false) → Py.strip s = s.
Proof.
  intros Hs. unfold Py.strip.
  assert (Py.lstrip s = s) as ->.
  { destruct s as [|c s]; [done|]. cbn [Py.lstrip].
    rewrite Hs; [done | simpl; by left]. }
  by apply rstrip_no_space.
Qed.

Lemma str_int_no_space (z : Z) (c : ascii) :
  c ∈ Py.chars (Py.str_int z) → Py.isspace c = false.
Proof.
  intros Hc. pose proof (str_int_chars z) as F.
  rewrite Forall_forall in F. destruct (F c Hc) as [D| ->]; [|by vm_compute].
  unfold is_digit in D. simpl in D.
  repeat (apply elem_of_cons in D as [->|D]; [by vm_compute|]).
  by apply elem_of_nil in D.
Qed.

Lemma clean_key_value_stripped (v : value) :
  Py.strip (_clean_key_value v) = _clean_key_value v.
Proof.
  unfold _clean_key_value. destruct v as [|f|z|s]; try apply strip_idem; [done|].
  destruct (Py.isnan f); [done|].
  destruct (Py.is_integer f); [|apply strip_idem].
  apply strip_no_space, str_int_no_space.
Qed.

(** X4. A normalised key is a fixed point of the normaliser, as a text
    cell, and carries no surrounding whitespace. *)
Theorem clean_key_value_stable (v : value) :
  _clean_key_value (VStr (_clean_key_value v)) = _clean_key_value v
  ∧ Py.strip (_clean_key_value v) = _clean_key_value v.
Proof. split; apply clean_key_value_stripped. Qed.

(** ** Header spellings *)

Lemma isspace_lower_char (c : ascii) :
  Py.isspace (Py.lower_char c) = Py.isspace c.
Proof. destruct c as [[] [] [] [] [] [] [] []]; reflexivity. Qed.

Lemma lower_char_idem (c : ascii) :
  Py.lower_char (Py.lower_char c) = Py.lower_char c.
Proof. destruct c as [[] [] [] [] [] [] [] []]; reflexivity. Qed.

Lemma lower_char_nbsp (c : ascii) :
  Ascii.eqb (Py.lower_char c) Py.NBSP = Ascii.eqb c Py.NBSP.
Proof. destruct c as [[] [] [] [] [] [] [] []]; reflexivity. Qed.

Lemma lower_idem (s : string) : Py.lower (Py.lower s) = Py.lower s.
Proof.
  induction s as [|c s IH]; simpl; [done|]. by rewrite lower_char_idem, IH.
Qed.

Lemma lower_append (a b : string) :
  Py.lower (a +:+ b) = Py.lower a +:+ Py.lower b.
Proof. induction a as [|x a IH]; simpl; [done | by rewrite IH]. Qed.

Lemma lower_replace_nbsp (s : string) :
  Py.replace_char Py.NBSP " " (Py.lower s)
  = Py.lower (Py.replace_char Py.NBSP " " s).
Proof.
  induction s as [|c s IH]; simpl; [done|]. rewrite IH, lower_char_nbsp.
  by destruct (Ascii.eqb c Py.NBSP).
Qed.

Lemma lower_eqb_empty (w : string) :
  String.eqb (Py.lower w) "" = String.eqb w "".
Proof. by destruct w. Qed.

Lemma lower_split_ws_aux (w s : string) :
  Py.split_ws_aux (Py.lower w) (Py.lower s) = map Py.lower (Py.split_ws_aux w s).
Proof.
  revert w. induction s as [|c s IH]; intros w; cbn [Py.lower Py.split_ws_aux].
  - rewrite lower_eqb_empty. by destruct (String.eqb w "").
  - rewrite isspace_lower_char, lower_eqb_empty.
    destruct (Py.isspace c).
    + destruct (String.eqb w ""); [apply (IH "")|].
      cbn [map]. f_equal. apply (IH "").
    + rewrite <- IH. by rewrite lower_append.
Qed.

Lemma lower_join (l : list string) :
  Py.join " " (map Py.lower l) = Py.lower (Py.join " " l).
Proof.
  induction l as [|x l IH]; [done|]. cbn [map Py.join].
  destruct l as [|y l]; [done|].
  cbn [map] in *. rewrite IH. by rewrite !lower_append.
Qed.

Lemma lower_lstrip (s : string) : Py.lstrip (Py.lower s) = Py.lower (Py.lstrip s).
Proof.
  induction s as [|c s IH]; [done|]. cbn [Py.lower Py.lstrip].
  rewrite isspace_lower_char. by destruct (Py.isspace c).
Qed.

Lemma lower_rstrip (s : string) : Py.rstrip (Py.lower s) = Py.lower (Py.rstrip s).
Proof.
  induction s as [|c s IH]; [done|]. cbn [Py.lower Py.rstrip].
  rewrite IH. destruct (Py.rstrip s); cbn [Py.lower].
  - rewrite isspace_lower_char. by destruct (Py.isspace c).
  - done.
Qed.

Lemma norm_key_name_lower (s : string) :
  _norm_key_name (Some (Py.lower s)) = _norm_key_name (Some s).
Proof.
  unfold _norm_key_name. do 2 f_equal.
  rewrite lower_replace_nbsp. unfold Py.split_ws.
  pose proof (lower_split_ws_aux "" (Py.replace_char Py.NBSP " " s)) as H.
  change (Py.lower "") with "" in H. rewrite H, lower_join.
  unfold Py.strip. rewrite lower_lstrip, lower_rstrip. apply lower_idem.
Qed.

(** X1. Header matching ignores letter case: two headers with the same
    lower-case form have the same normalised spelling, and
    [_canon_columns] renames both or neither, to the same name. *)
Theorem canonical_name_ignores_case (c1 c2 : string) :
  Py.lower c1 = Py.lower c2 →
  _norm_key_name (Some c1) = _norm_key_name (Some c2)
  ∧ canon_target c1 = canon_target c2.
Proof.
  intros E.
  assert (_norm_key_name (Some c1) = _norm_key_name (Some c2)) as H.
  { by rewrite <- (norm_key_name_lower c1), <- (norm_key_name_lower c2), E. }
  split; [done|]. unfold canon_target. by rewrite H.
Qed.

(** X2. [_canon_columns] keeps the rows and the number and order of the
    columns, and renames each header on its own, also when a label
    occurs twice: to [Item number], [Delay (days)] or [Number] when its
    normalised spelling is in the respective list, and not at all
    otherwise. *)
Theorem canon_columns_renames_each_header (df : DataFrame) :
  rows (_canon_columns df) = rows df
  ∧ length (columns (_canon_columns df)) = length (columns df)
  ∧ ∀ i c, columns df !! i = Some c →
      columns (_canon_columns df) !! i = Some (canon_label c)
      ∧ (_norm_key_name (Some c) ∈ item_names → canon_label c = "Item number")
      ∧ ((_norm_key_name (Some c) ∉ item_names) →
         _norm_key_name (Some c) ∈ delay_names → canon_label c = "Delay (days)")
      ∧ ((_norm_key_name (Some c) ∉ item_names) →
         (_norm_key_name (Some c) ∉ delay_names) →
         _norm_key_name (Some c) = "number" → canon_label c = "Number")
      ∧ ((_norm_key_name (Some c) ∉ item_names) →
         (_norm_key_name (Some c) ∉ delay_names) →
         _norm_key_name (Some c) ≠ "number" → canon_label c = c).
Proof.
  split; [done|]. rewrite canon_columns_labels, length_map.
  split; [done|]. intros i c Hc.
  split; [by rewrite list_lookup_fmap, Hc|].
  unfold canon_label, canon_target.
  repeat split; intros; repeat case_decide; done.
Qed.

(** ** Cells of padded rows *)

Lemma lookup_padded (w q : nat) (r : list value) :
  q < w → take w (r ++ replicate w VNone) !! q = Some (Pandas.get_cell q r).
Proof.
  intros Hq. rewrite lookup_take_lt by done. unfold Pandas.get_cell.
  destruct (decide (q < length r)) as [Hlt|Hge].
  - rewrite lookup_app_l by done.
    destruct (lookup_lt_is_Some_2 r q Hlt) as [x ->]. done.
  - rewrite lookup_app_r by lia. rewrite lookup_replicate_2 by lia.
    by rewrite lookup_ge_None_2 by lia.
Qed.

Lemma get_set_cell_ne (p q : nat) (v : value) (r : list value) :
  p ≠ q → Pandas.get_cell q (Pandas.set_cell p v r) = Pandas.get_cell q r.
Proof.
  intros Hne. unfold Pandas.set_cell.
  assert (length (take p (r ++ replicate p VNone)) = p) as Hlen.
  { rewrite length_take, length_app, length_replicate. lia. }
  destruct (decide (q < p)) as [Hlt|Hge].
  - unfold Pandas.get_cell at 1. rewrite lookup_app_l by lia.
    by rewrite lookup_padded.
  - unfold Pandas.get_cell. rewrite lookup_app_r by lia. rewrite Hlen.
    destruct (q - p) as [|d] eqn:Ed; [lia|].
    rewrite lookup_cons_ne_0 by done. cbn [pred].
    rewrite lookup_drop. by replace (S p + d) with q by lia.
Qed.

(** X3. The [Number] fallback: a table that has [Item number], or has no
    [Number], is returned as it is; with no [Item number] and exactly one
    [Number] column the result has one more column, [Item number], placed
    last and equal to [Number] row by row, all other cells being kept;
    with several [Number] columns the assignment fails. Afterwards the
    table has [Item number] exactly if it had [Item number] or
    [Number]. *)
Theorem ensure_item_number_cases (df : DataFrame) :
  ("Item number" ∈ columns df → _ensure_item_number df = Ok df)
  ∧ (("Number" ∉ columns df) → _ensure_item_number df = Ok df)
  ∧ (("Item number" ∉ columns df) →
     ∀ p, Pandas.positions "Number" (columns df) = [p] →
       ∃ df', _ensure_item_number df = Ok df'
         ∧ columns df' = columns df ++ ["Item number"]
         ∧ length (rows df') = length (rows df)
         ∧ ∀ i r, rows df !! i = Some r →
             ∃ r', rows df' !! i = Some r'
               ∧ length r' = S (length (columns df))
               ∧ (∀ q, q < length (columns df) →
                    Pandas.get_cell q r' = Pandas.get_cell q r)
               ∧ Pandas.get_cell (length (columns df)) r' = Pandas.get_cell p r)
  ∧ (("Item number" ∉ columns df) →
     2 ≤ length (Pandas.positions "Number" (columns df)) →
     ∃ msg, _ensure_item_number df = Raise (ValueError msg))
  ∧ (∀ df', _ensure_item_number df = Ok df' →
       ("Item number" ∈ columns df'
        ↔ "Item number" ∈ columns df ∨ "Number" ∈ columns df)).
Proof.
  unfold _ensure_item_number.
  split; [intros H; rewrite decide_False by tauto; done|].
  split; [intros H; rewrite decide_False by tauto; done|].
  split.
  { intros Hi p Ep.
    assert ("Number" ∈ columns df) as Hn.
    { destruct (decide ("Number" ∈ columns df)) as [|Hno]; [done|].
      apply positions_nil in Hno. congruence. }
    rewrite decide_True by done. rewrite Ep.
    eexists. split; [done|]. unfold Pandas.append_column. cbn [columns rows].
    split; [done|]. split; [by rewrite length_map|].
    intros i r Hr. eexists. split; [by rewrite list_lookup_fmap, Hr|].
    assert (length (take (length (columns df))
                      (r ++ replicate (length (columns df)) VNone))
            = length (columns df)) as Hlen.
    { rewrite length_take, length_app, length_replicate. lia. }
    split; [rewrite length_app, Hlen; simpl; lia|]. split.
    - intros q Hq. unfold Pandas.get_cell at 1.
      rewrite lookup_app_l by lia. by rewrite lookup_padded.
    - unfold Pandas.get_cell at 1. rewrite lookup_app_r by lia.
      by rewrite Hlen, Nat.sub_diag. }
  split.
  { intros Hi Hlen.
    destruct (Pandas.positions "Number" (columns df)) as [|p [|p' ps]] eqn:Ep;
      [simpl in Hlen; lia | simpl in Hlen; lia |].
    assert ("Number" ∈ columns df) as Hn.
    { apply list_elem_of_lookup. exists p. apply positions_elem. rewrite Ep. by left. }
    rewrite decide_True by done. eauto. }
  intros df'. case_decide as Hc.
  - destruct Hc as [Hi Hn].
    destruct (Pandas.positions "Number" (columns df)) as [|p [|p' ps]]; try done.
    intros [= <-]. unfold Pandas.append_column. cbn [columns].
    rewrite elem_of_app, list_elem_of_singleton. tauto.
  - intros [= <-].
    destruct (decide ("Item number" ∈ columns df)); [tauto|].
    destruct (decide ("Number" ∈ columns df)); tauto.
Qed.

(** ** The tables that [_prepare] returns *)

Lemma selected_positions_ne (cols rest : list string) (key : string) (po p : nat) :
  key ∉ rest → cols !! po = Some key → p ∈ selected_positions cols rest → p ≠ po.
Proof.
  intros Hk Hpo Hp ->. unfold selected_positions in Hp.
  apply list_elem_of_In, in_flat_map in Hp as (c & Hc%list_elem_of_In & Hp).
  apply list_elem_of_In, positions_elem in Hp. congruence.
Qed.

Lemma prepared_table_intro (key : string) (rest : list string) (df : DataFrame)
    (f : IndexedFrame) :
  key ∉ rest →
  Pandas.set_index key
    (Pandas.select (key :: rest)
       (Pandas.drop_duplicates key
          (Pandas.map_column key (fun v => VStr (_clean_key_value v)) df))) = Ok f →
  ∃ po, Pandas.positions key (columns df) = [po] ∧ f = prepared_table key rest df po.
Proof.
  intros Hk. unfold Pandas.set_index, Pandas.select.
  cbn [columns rows flat_map Pandas.drop_duplicates Pandas.map_column].
  pose proof (select_header_no_key key rest (columns df) Hk) as Hno.
  fold (selected_labels (columns df) rest) in *.
  fold (selected_positions (columns df) rest).
  destruct (Pandas.positions key (columns df)) as [|po [|p2 ps]] eqn:Ep.
  - cbn [map app]. apply positions_nil in Hno. rewrite Hno. done.
  - cbn [map app]. unfold Pandas.positions at 1. cbn [Pandas.positions_from].
    rewrite decide_True by done. rewrite positions_from_shift.
    apply positions_nil in Hno. unfold Pandas.positions in Hno. rewrite Hno.
    cbn [map]. intros [= <-]. exists po. split; [done|].
    unfold prepared_table. f_equal. cbn [foldr].
    rewrite keep_last_map, !map_map.
    rewrite (keep_last_ext _ (cleaned_key po)).
    + apply map_ext_in. intros r _. cbn [map]. rewrite get_set_cell.
      cbn [Pandas.key_text]. f_equal. cbn [delete list_delete].
      apply map_ext_in. intros p Hp%list_elem_of_In.
      apply get_set_cell_ne. apply not_eq_sym.
      eapply selected_positions_ne; [done | | done].
      apply positions_elem. rewrite Ep. by left.
    + intros x y. unfold compose, Pandas.subset_key. cbn [map].
      rewrite !get_set_cell. unfold cleaned_key.
      split; [by intros [= E] | by intros ->].
  - cbn [map app]. unfold Pandas.positions at 1. cbn [Pandas.positions_from].
    rewrite !decide_True by done. done.
Qed.

Lemma prepare_ok_shape (df_old df_new : DataFrame) (key : string)
    (o n : IndexedFrame) (cc : list string) :
  _prepare df_old df_new key = Ok (o, n, cc) →
  ∃ old' new' po pn rest,
    _ensure_item_number (_canon_columns df_old) = Ok old'
    ∧ _ensure_item_number (_canon_columns df_new) = Ok new'
    ∧ Pandas.positions key (columns old') = [po]
    ∧ Pandas.positions key (columns new') = [pn]
    ∧ cc = key :: rest
    ∧ (key ∉ rest)
    ∧ o = prepared_table key rest old' po
    ∧ n = prepared_table key rest new' pn.
Proof.
  forget_runtime. unfold _prepare.
  destruct (_ensure_item_number (_canon_columns df_old)) as [old'| |]; [|done..].
  destruct (_ensure_item_number (_canon_columns df_new)) as [new'| |]; [|done..].
  cbn [mbind result_bind].
  case_decide as Hmiss; [done|].
  assert (key ∈ columns old') as Ho.
  { destruct (decide (key ∈ columns old')); [done | exfalso; auto]. }
  assert (key ∈ columns new') as Hn.
  { destruct (decide (key ∈ columns new')); [done | exfalso; auto]. }
  cbn [columns Pandas.drop_duplicates Pandas.map_column].
  destruct (common_cols_key_first key (columns old') (columns new') Ho Hn) as [-> Hrest].
  set (rest := filter _ _) in *.
  destruct (Pandas.set_index key (Pandas.select (key :: rest)
              (Pandas.drop_duplicates key
                 (Pandas.map_column key (fun v => VStr (_clean_key_value v)) old'))))
    as [o'| |] eqn:Eo; cbn [mbind result_bind]; [|done..].
  destruct (Pandas.set_index key (Pandas.select (key :: rest)
              (Pandas.drop_duplicates key
                 (Pandas.map_column key (fun v => VStr (_clean_key_value v)) new'))))
    as [n'| |] eqn:En; cbn [mbind result_bind]; [|done..].
  intros [= <- <- <-].
  apply prepared_table_intro in Eo as (po & ? & ?); [|done].
  apply prepared_table_intro in En as (pn & ? & ?); [|done].
  exists old', new', po, pn, rest. done.
Qed.


(** ** Order of texts *)

Lemma string_compare_trans_le (a b c : string) :
  String.compare a b ≠ Gt → String.compare b c ≠ Gt → String.compare a c ≠ Gt.
Proof.
  revert b c. induction a as [|x a IH]; intros [|y b] [|z c]; simpl; try done.
  unfold Ascii.compare.
  destruct (N.compare_spec (N_of_ascii x) (N_of_ascii y)) as [Exy|Lxy|Gxy];
    destruct (N.compare_spec (N_of_ascii y) (N_of_ascii z)) as [Eyz|Lyz|Gyz];
    destruct (N.compare_spec (N_of_ascii x) (N_of_ascii z)) as [Exz|Lxz|Gxz];
    try done; try lia.
  apply IH.
Qed.

#[local] Instance str_le_trans : Transitive Py.str_le.
Proof.
  intros a b c. unfold Py.str_le, String.leb.
  pose proof (string_compare_trans_le a b c) as H.
  destruct (String.compare a b), (String.compare b c), (String.compare a c);
    try done; intros; exfalso; by apply H.
Qed.

#[local] Instance str_le_total : Total Py.str_le.
Proof. intros a b. apply String.leb_total. Qed.

Lemma sorted_strongly (l : list string) : StronglySorted Py.str_le (Py.sorted l).
Proof. apply StronglySorted_merge_sort; apply _. Qed.

Lemma StronglySorted_filter {A} (R : relation A) (P : A → Prop)
    `{∀ x, Decision (P x)} (l : list A) :
  StronglySorted R l → StronglySorted R (filter P l).
Proof.
  induction 1 as [|x l Hl IH Hx]; [constructor|].
  rewrite filter_cons. case_decide; [|done].
  constructor; [done|]. apply Forall_forall. intros y Hy.
  apply list_elem_of_filter in Hy as [_ Hy].
  rewrite Forall_forall in Hx. by apply Hx.
Qed.

Lemma positions_from_absent (i : nat) (c : string) (cols : list string) :
  c ∉ cols → Pandas.positions_from i c cols = [].
Proof.
  revert i. induction cols as [|x cols IH]; intros i Hc; [done|].
  cbn [Pandas.positions_from]. apply not_elem_of_cons in Hc as [Hx Hc].
  rewrite decide_False by done. by apply IH.
Qed.

Lemma positions_unique (c : string) (cols : list string) :
  NoDup cols → c ∈ cols → ∃ p, Pandas.positions c cols = [p].
Proof.
  unfold Pandas.positions. generalize 0 as i.
  induction cols as [|x cols IH]; intros i Hnd Hc; [by apply elem_of_nil in Hc|].
  apply NoDup_cons in Hnd as [Hx Hnd]. cbn [Pandas.positions_from].
  destruct (decide (x = c)) as [->|Hne].
  - exists i. by rewrite positions_from_absent.
  - apply elem_of_cons in Hc as [->|Hc]; [done|]. by apply IH.
Qed.

Lemma selected_labels_elem (cols rest : list string) (c : string) :
  c ∈ selected_labels cols rest ↔ c ∈ rest ∧ c ∈ cols.
Proof.
  unfold selected_labels. rewrite list_elem_of_In, in_flat_map. split.
  - intros (x & Hx%list_elem_of_In & Hin). apply in_map_iff in Hin as (p & <- & Hp).
    split; [done|]. apply list_elem_of_In, positions_elem in Hp.
    by apply list_elem_of_lookup_2 in Hp.
  - intros [Hr [p Hp]%list_elem_of_lookup]. exists c.
    split; [by apply list_elem_of_In|]. apply in_map_iff. exists p.
    split; [done|]. by apply list_elem_of_In, positions_elem.
Qed.

Lemma selected_labels_NoDup (cols rest : list string) :
  NoDup cols → (∀ c, c ∈ rest → c ∈ cols) → selected_labels cols rest = rest.
Proof.
  intros Hnd. unfold selected_labels.
  induction rest as [|c rest IH]; intros Hr; [done|]. cbn [flat_map].
  destruct (positions_unique c cols Hnd) as [p ->]; [apply Hr; by left|].
  cbn [map app]. f_equal. apply IH. intros x Hx. apply Hr. by right.
Qed.

Lemma prepare_common_cols (df_old df_new : DataFrame) (key : string)
    (o n : IndexedFrame) (cc : list string) (old' new' : DataFrame) :
  _prepare df_old df_new key = Ok (o, n, cc) →
  _ensure_item_number (_canon_columns df_old) = Ok old' →
  _ensure_item_number (_canon_columns df_new) = Ok new' →
  key ∈ columns old' ∧ key ∈ columns new'
  ∧ cc = key :: filter (fun c => c ≠ key)
                  (Py.sorted (elements ((list_to_set (columns new') : gset string)
                                        ∩ list_to_set (columns old')))).
Proof.
  forget_runtime. unfold _prepare. intros H Eo En. rewrite Eo, En in H.
  cbn [mbind result_bind] in H. revert H.
  case_decide as Hmiss; [done|].
  assert (key ∈ columns old') as Ho.
  { destruct (decide (key ∈ columns old')); [done | exfalso; auto]. }
  assert (key ∈ columns new') as Hn.
  { destruct (decide (key ∈ columns new')); [done | exfalso; auto]. }
  split; [done|]. split; [done|]. revert H.
  cbn [columns Pandas.drop_duplicates Pandas.map_column].
  destruct (common_cols_key_first key (columns old') (columns new') Ho Hn) as [E _].
  cbn zeta in E. rewrite E. clear E.
  set (rest := filter _ _) in *.
  destruct (Pandas.set_index key (Pandas.select (key :: rest)
              (Pandas.drop_duplicates key
                 (Pandas.map_column key (fun v => VStr (_clean_key_value v)) old'))))
    as [o'| |]; cbn [mbind result_bind]; [|done..].
  destruct (Pandas.set_index key (Pandas.select (key :: rest)
              (Pandas.drop_duplicates key
                 (Pandas.map_column key (fun v => VStr (_clean_key_value v)) new'))))
    as [n'| |]; cbn [mbind result_bind]; [|done..].
  by intros [= _ _ <-].
Qed.

(** X7. The column list that [_prepare] returns starts with the key, has
    no label twice, holds exactly the labels common to both canonicalised
    tables, and lists the labels after the key in ascending order. Both
    returned tables have columns for exactly these other labels; when the
    canonicalised headers have no repeated label, both have precisely
    this column list, so the tables are aligned. *)
Theorem prepare_aligns_columns (df_old df_new : DataFrame) (key : string)
    (o n : IndexedFrame) (cc : list string) :
  _prepare df_old df_new key = Ok (o, n, cc) →
  ∃ old' new' rest,
    _ensure_item_number (_canon_columns df_old) = Ok old'
    ∧ _ensure_item_number (_canon_columns df_new) = Ok new'
    ∧ cc = key :: rest
    ∧ NoDup cc
    ∧ (∀ c, c ∈ cc ↔ c ∈ columns old' ∧ c ∈ columns new')
    ∧ StronglySorted Py.str_le rest
    ∧ (∀ c, c ∈ icolumns o ↔ c ∈ rest)
    ∧ (∀ c, c ∈ icolumns n ↔ c ∈ rest)
    ∧ (NoDup (columns old') → icolumns o = rest)
    ∧ (NoDup (columns new') → icolumns n = rest).
Proof.
  forget_runtime.
  intros H.
  destruct (prepare_ok_shape _ _ _ _ _ _ H)
    as (old' & new' & po & pn & rest & Eo & En & Ho & Hn & Hcc & Hrest & -> & ->).
  destruct (prepare_common_cols _ _ _ _ _ _ _ _ H Eo En) as (Hko & Hkn & Hcc').
  rewrite Hcc in Hcc'. injection Hcc' as Erest.
  assert (∀ c, c ∈ rest ↔ c ≠ key ∧ c ∈ columns old' ∧ c ∈ columns new') as Hmem.
  { intros c. rewrite Erest, list_elem_of_filter, sorted_elem, elem_of_elements.
    rewrite elem_of_intersection, !elem_of_list_to_set. tauto. }
  exists old', new', rest. split; [done|]. split; [done|]. split; [done|].
  split.
  { rewrite Hcc. constructor; [done|]. rewrite Erest.
    apply NoDup_filter, sorted_NoDup, NoDup_elements. }
  split.
  { intros c. rewrite Hcc, elem_of_cons, Hmem.
    destruct (decide (c = key)) as [->|]; [tauto | tauto]. }
  split; [rewrite Erest; apply StronglySorted_filter, sorted_strongly|].
  cbn [icolumns prepared_table].
  split; [intros c; rewrite selected_labels_elem, Hmem; tauto|].
  split; [intros c; rewrite selected_labels_elem, Hmem; tauto|].
  split; intros Hnd; apply selected_labels_NoDup; try done;
    intros c Hc%Hmem; tauto.
Qed.

Lemma prepare_run (df_old df_new : DataFrame) (key : string)
    (old' new' : DataFrame) (po pn : nat) :
  _ensure_item_number (_canon_columns df_old) = Ok old' →
  _ensure_item_number (_canon_columns df_new) = Ok new' →
  Pandas.positions key (columns old') = [po] →
  Pandas.positions key (columns new') = [pn] →
  let rest := filter (fun c => c ≠ key)
                (Py.sorted (elements ((list_to_set (columns new') : gset string)
                                      ∩ list_to_set (columns old')))) in
  _prepare df_old df_new key
  = Ok (prepared_table key rest old' po, prepared_table key rest new' pn,
        key :: rest).
Proof.
  forget_runtime.
  intros Eo En Ho Hn rest.
  destruct (prepare_total _ _ _ _ _ _ _ Eo En Ho Hn) as (o & n & cc & H).
  rewrite H.
  destruct (prepare_ok_shape _ _ _ _ _ _ H)
    as (old'' & new'' & po' & pn' & rest' & Eo' & En' & Ho' & Hn' & Hcc & _ & -> & ->).
  rewrite Eo in Eo'. injection Eo' as <-. rewrite En in En'. injection En' as <-.
  rewrite Ho in Ho'. injection Ho' as <-. rewrite Hn in Hn'. injection Hn' as <-.
  destruct (prepare_common_cols _ _ _ _ _ _ _ _ H Eo En) as (_ & _ & Hcc').
  rewrite Hcc in Hcc'. injection Hcc' as ->. by rewrite Hcc.
Qed.

(** X8. Exchanging the two files exchanges the two returned tables and
    leaves the returned column list as it is. *)
Theorem prepare_symmetric (df_old df_new : DataFrame) (key : string)
    (o n : IndexedFrame) (cc : list string) :
  _prepare df_old df_new key = Ok (o, n, cc) →
  _prepare df_new df_old key = Ok (n, o, cc).
Proof.
  forget_runtime.
  intros H.
  destruct (prepare_ok_shape _ _ _ _ _ _ H)
    as (old' & new' & po & pn & rest & Eo & En & Ho & Hn & Hcc & _ & -> & ->).
  destruct (prepare_common_cols _ _ _ _ _ _ _ _ H Eo En) as (_ & _ & Hcc').
  rewrite Hcc in Hcc'. injection Hcc' as ->.
  rewrite (prepare_run df_new df_old key new' old' pn po En Eo Hn Ho).
  cbn zeta. rewrite Hcc.
  by rewrite (comm_L (∩) (list_to_set (columns old') : gset string)
                (list_to_set (columns new'))).
Qed.



(** ** More on the delta filter *)

Lemma map_filter_sorted {A B} (R : relation B) (f : A → B) (Q : A → Prop)
    `{∀ x, Decision (Q x)} (l : list A) :
  StronglySorted R (map f l) → StronglySorted R (map f (filter Q l)).
Proof.
  induction l as [|x l IH]; cbn [map]; [by rewrite filter_nil|].
  intros [Hall Hs]%StronglySorted_cons. rewrite filter_cons.
  case_decide; [|by apply IH]. cbn [map]. apply StronglySorted_cons.
  split; [|by apply IH]. apply Forall_forall. intros y Hy.
  rewrite Forall_forall in Hall. apply Hall.
  apply list_elem_of_fmap in Hy as (a & -> & Ha).
  apply list_elem_of_filter in Ha as [_ Ha].
  apply list_elem_of_fmap. by exists a.
Qed.

Lemma map_filter_NoDup {A B} (f : A → B) (Q : A → Prop)
    `{∀ x, Decision (Q x)} (l : list A) :
  NoDup (map f l) → NoDup (map f (filter Q l)).
Proof.
  induction l as [|x l IH]; cbn [map]; [by rewrite filter_nil|].
  intros [Hx Hnd]%NoDup_cons. rewrite filter_cons.
  case_decide; [|by apply IH]. cbn [map]. apply NoDup_cons.
  split; [|by apply IH]. intros Hy. apply Hx.
  apply list_elem_of_fmap in Hy as (a & -> & Ha).
  apply list_elem_of_filter in Ha as [_ Ha].
  apply list_elem_of_fmap. by exists a.
Qed.

Lemma map_filter_sublist {A B} (f : A → B) (Q : A → Prop)
    `{∀ x, Decision (Q x)} (l : list A) :
  sublist (map f (filter Q l)) (map f l).
Proof.
  induction l as [|x l IH]; cbn [map]; [by rewrite filter_nil|].
  rewrite filter_cons. case_decide; cbn [map];
    [by apply sublist_skip | by apply sublist_cons].
Qed.

Lemma added_keys_sorted (o n : IndexedFrame) :
  StronglySorted Py.str_le (added_keys o n).
Proof. apply sorted_strongly. Qed.


(** X10. With unique keys in the new table, the rows of the added-delay
    table come in ascending order of their keys, no key twice, and their
    keys are taken in order from the sorted list of new keys. *)
Theorem added_rows_sorted_by_key (o n : IndexedFrame) (out : DataFrame) :
  NoDup (index n) →
  _new_rows_with_delay o n = Ok out →
  ∃ ks, map row_key (rows out) = map (fun k => Some (VStr k)) ks
        ∧ StronglySorted Py.str_le ks
        ∧ NoDup ks
        ∧ sublist ks (added_keys o n).
Proof.
  intros Hnd H.
  set (L := Pandas.loc (added_keys o n) n).
  assert (index L = added_keys o n) as HL.
  { apply loc_index; [done|]. intros k Hk. by apply added_keys_elem in Hk as [? _]. }
  assert (∀ l : list (string * list value),
            map row_key (map Pandas.restore_key l)
            = map (fun k => Some (VStr k)) (map fst l)) as Hkeys.
  { intros l. rewrite !map_map. done. }
  apply new_rows_with_delay_shape in H
    as [[Ha ->]|(_ & _ & _ & [[_ E]|(p & b & Ep & E)])].
  - exists []. repeat split; try constructor. apply sublist_nil_l.
  - exists (added_keys o n). rewrite E, Hkeys. fold L. fold (index L). rewrite HL.
    split; [done|]. split; [apply added_keys_sorted|].
    split; [apply added_keys_NoDup | done].
  - rewrite E, Hkeys. fold L. rewrite filter_map.
    assert (∀ l : list (string * list value),
              map fst (map (with_numeric_delay p b) l) = map fst l) as Hfst.
    { intros l. rewrite map_map. done. }
    rewrite Hfst. eexists. split; [done|].
    split; [apply map_filter_sorted; change (StronglySorted Py.str_le (index L));
            rewrite HL; apply added_keys_sorted|].
    split; [apply map_filter_NoDup; change (NoDup (index L)); rewrite HL;
            apply added_keys_NoDup|].
    rewrite <- HL. apply map_filter_sublist.
Qed.

(** X11. The delta filter looks at the old table only through its set
    of keys: two old tables with the same keys give the same result,
    whatever their rows and columns. *)
Theorem added_rows_depend_on_old_keys_only (o o' n : IndexedFrame) :
  (∀ k, k ∈ index o ↔ k ∈ index o') →
  _new_rows_with_delay o n = _new_rows_with_delay o' n.
Proof.
  intros Hk.
  assert ((list_to_set (index o) : gset string) = list_to_set (index o')) as E.
  { apply set_eq. intros k. rewrite !elem_of_list_to_set. apply Hk. }
  unfold _new_rows_with_delay, added_keys. by rewrite E.
Qed.

(** X12. When every key of the new table is in the old table, the result
    is the empty table headed by [Item number] and the new table's other
    columns, also where a repeated [Delay (days)] label would otherwise
    make the filter fail. For tables keyed by [Item number] the header of
    the result is [Item number] followed by the columns of the new table
    in all cases. *)
Theorem added_rows_header_and_empty_case (o n : IndexedFrame) :
  ((∀ k, k ∈ index n → k ∈ index o) →
   _new_rows_with_delay o n
   = Ok (mkDF ("Item number" :: filter (fun c => c ≠ "Item number") (icolumns n)) []))
  ∧ (index_name n = "Item number" → ("Item number" ∉ icolumns n) →
     ∀ out, _new_rows_with_delay o n = Ok out →
       columns out = "Item number" :: icolumns n).
Proof.
  split.
  - intros Hall. unfold _new_rows_with_delay.
    destruct (added_keys o n) as [|k ks] eqn:Ek; [done|].
    assert (k ∈ added_keys o n) as Hk by (rewrite Ek; by left).
    apply added_keys_elem in Hk as [Hn Ho]. by apply Hall in Hn.
  - intros Hname Hno out H.
    apply new_rows_with_delay_shape in H as [[_ ->]|(_ & _ & -> & _)].
    + cbn [columns]. f_equal.
      induction (icolumns n) as [|c l IH]; [done|].
      apply not_elem_of_cons in Hno as [Hc Hl].
      rewrite filter_cons_True by done. f_equal. by apply IH.
    + by rewrite Hname.
Qed.


(** X14. The delta filter returns a table exactly when no key is new, or
    at most one column is labelled [Delay (days)] and the key label is
    not also a column. Otherwise it raises: a [TypeError] when the label
    [Delay (days)] is repeated, a [ValueError] when the key label cannot
    be put back as a column. *)
Theorem added_rows_outcome (o n : IndexedFrame) :
  ((∃ out, _new_rows_with_delay o n = Ok out)
   ↔ added_keys o n = []
     ∨ (length (Pandas.positions DELAY (icolumns n)) ≤ 1
        ∧ (index_name n ∉ icolumns n)))
  ∧ (added_keys o n ≠ [] → 2 ≤ length (Pandas.positions DELAY (icolumns n)) →
     ∃ msg, _new_rows_with_delay o n = Raise (TypeError msg))
  ∧ (added_keys o n ≠ [] → length (Pandas.positions DELAY (icolumns n)) ≤ 1 →
     index_name n ∈ icolumns n →
     ∃ msg, _new_rows_with_delay o n = Raise (ValueError msg)).
Proof.
  assert (added_keys o n ≠ [] → 2 ≤ length (Pandas.positions DELAY (icolumns n)) →
          ∃ msg, _new_rows_with_delay o n = Raise (TypeError msg)) as Htype.
  { intros Ha Hlen. unfold _new_rows_with_delay.
    destruct (added_keys o n) as [|k ks]; [done|]. cbn [icolumns Pandas.loc].
    destruct (Pandas.positions DELAY (icolumns n)) as [|p [|p' ps]] eqn:Ep;
      [simpl in Hlen; lia | simpl in Hlen; lia|].
    rewrite decide_True.
    - cbn [mbind result_bind]. eauto.
    - apply list_elem_of_lookup. exists p. apply positions_elem. rewrite Ep. by left. }
  assert (added_keys o n ≠ [] → length (Pandas.positions DELAY (icolumns n)) ≤ 1 →
          index_name n ∈ icolumns n →
          ∃ msg, _new_rows_with_delay o n = Raise (ValueError msg)) as Hval.
  { intros Ha Hlen Hin. unfold _new_rows_with_delay.
    destruct (added_keys o n) as [|k ks]; [done|]. cbn [icolumns Pandas.loc].
    destruct (decide (DELAY ∈ icolumns n)) as [Hd|Hd].
    - destruct (Pandas.positions DELAY (icolumns n)) as [|p [|p' ps]] eqn:Ep.
      + apply positions_nil in Ep. done.
      + cbn [mbind result_bind]. unfold Pandas.reset_index.
        cbn [index_name icolumns Pandas.where_gt0 Pandas.set_column].
        rewrite decide_True by done. eauto.
      + simpl in Hlen. lia.
    - cbn [mbind result_bind]. unfold Pandas.reset_index.
      cbn [index_name icolumns]. rewrite decide_True by done. eauto. }
  split; [|split; done]. split.
  - intros [out H].
    destruct (decide (added_keys o n = [])) as [|Ha]; [by left|]. right.
    destruct (decide (length (Pandas.positions DELAY (icolumns n)) ≤ 1)) as [Hl|Hl].
    + split; [done|]. intros Hin.
      destruct (Hval Ha Hl Hin) as [m Hm]. congruence.
    + destruct (Htype Ha) as [m Hm]; [lia|]. congruence.
  - intros [Ha|[Hl Hn]].
    + unfold _new_rows_with_delay. rewrite Ha. eauto.
    + by apply new_rows_with_delay_total.
Qed.

(** ** Headers that are already safe *)

Lemma while_name_free (fuel : nat) (seen : gset string) (base : string)
    (n : nat) (name : string) :
  name ∉ seen → while_name_in_seen fuel seen base n name = Ok name.
Proof. intros H. destruct fuel; cbn [while_name_in_seen]; by rewrite decide_False. Qed.

Lemma safe_header_loop_fixed (cols : list string) (i : nat) (seen : gset string) :
  NoDup cols →
  (∀ c, c ∈ cols → Py.strip c = c ∧ c ≠ "" ∧ no_bad_char c ∧ c ∉ seen) →
  safe_header_loop i seen (map Some cols) = Ok cols.
Proof.
  forget_runtime.
  revert i seen. induction cols as [|c cols IH]; intros i seen Hnd Hall; [done|].
  apply NoDup_cons in Hnd as [Hc Hnd].
  destruct (Hall c) as (Hs & Hne & Hbad & Hseen); [by left|].
  cbn [map safe_header_loop]. rewrite Hs, decide_False by done.
  rewrite sub_bad_chars_id by done.
  rewrite while_name_free by done. cbn [mbind result_bind].
  rewrite IH; [done | done |].
  intros x Hx. destruct (Hall x) as (? & ? & ? & ?); [by right|].
  repeat split; try done. set_solver.
Qed.

Lemma isspace_sub_bad (c : ascii) :
  Py.isspace (if _excel_bad_chars c then "_"%char else c) = Py.isspace c.
Proof. destruct c as [[] [] [] [] [] [] [] []]; reflexivity. Qed.

Lemma sub_bad_lstrip (s : string) :
  Py.lstrip (sub_bad_chars s) = sub_bad_chars (Py.lstrip s).
Proof.
  induction s as [|c s IH]; [done|]. cbn [sub_bad_chars Py.lstrip].
  rewrite isspace_sub_bad. by destruct (Py.isspace c).
Qed.

Lemma sub_bad_rstrip (s : string) :
  Py.rstrip (sub_bad_chars s) = sub_bad_chars (Py.rstrip s).
Proof.
  induction s as [|c s IH]; [done|]. cbn [sub_bad_chars Py.rstrip].
  rewrite IH. destruct (Py.rstrip s); cbn [sub_bad_chars].
  - rewrite isspace_sub_bad. by destruct (Py.isspace c).
  - done.
Qed.

Lemma sub_bad_strip (s : string) :
  Py.strip (sub_bad_chars s) = sub_bad_chars (Py.strip s).
Proof. unfold Py.strip. by rewrite sub_bad_lstrip, sub_bad_rstrip. Qed.

Lemma str_nat_no_space (n : nat) (c : ascii) :
  c ∈ Py.chars (Py.str_nat n) → Py.isspace c = false.
Proof.
  intros Hc. pose proof (str_nat_digits n) as F.
  rewrite Forall_forall in F. specialize (F c Hc).
  unfold is_digit in F. simpl in F.
  repeat (apply elem_of_cons in F as [->|F]; [by vm_compute|]).
  by apply elem_of_nil in F.
Qed.

Lemma header_base_stripped (i : nat) (c : option string) :
  Py.strip (header_base i c) = header_base i c.
Proof.
  unfold header_base. rewrite sub_bad_strip. f_equal.
  case_decide; [|apply strip_idem].
  apply strip_no_space. intros x Hx. rewrite chars_append in Hx.
  apply elem_of_app in Hx as [Hx|Hx]; [|by eapply str_nat_no_space].
  simpl in Hx. repeat (apply elem_of_cons in Hx as [->|Hx]; [by vm_compute|]).
  by apply elem_of_nil in Hx.
Qed.

Lemma rstrip_append (a s : string) :
  s ≠ "" → Py.rstrip s = s → Py.rstrip (a +:+ s) = a +:+ s.
Proof.
  intros Hne Hs. induction a as [|x a IH]; [done|].
  cbn [String.append Py.rstrip]. rewrite IH.
  destruct (a +:+ s) eqn:E; [|done].
  destruct a; [|done]. simpl in E. done.
Qed.

Lemma stripped_head (s : string) :
  Py.strip s = s → s ≠ "" → ∃ c t, s = String c t ∧ Py.isspace c = false.
Proof.
  intros Hs Hne. unfold Py.strip in Hs.
  destruct (lstrip_head s) as [E|(c & t & E & Hc)].
  - rewrite E in Hs. by rewrite <- Hs in Hne.
  - rewrite E in Hs. destruct (rstrip_head c t Hc) as [t' E'].
    rewrite E' in Hs. exists c, t'. by rewrite <- Hs.
Qed.

Lemma suffixed_stripped (base : string) (m : nat) :
  Py.strip base = base → base ≠ "" → Py.strip (suffixed base m) = suffixed base m.
Proof.
  intros Hs Hne. unfold suffixed. case_decide; [done|].
  destruct (stripped_head base Hs Hne) as (c & t & -> & Hc).
  unfold Py.strip. cbn [String.append Py.lstrip]. rewrite Hc.
  apply (rstrip_append (String c t) ("_" +:+ Py.str_nat m)); [done|].
  apply rstrip_no_space. intros x Hx. rewrite chars_append in Hx.
  apply elem_of_app in Hx as [Hx|Hx]; [|by eapply str_nat_no_space].
  simpl in Hx. apply elem_of_cons in Hx as [->|Hx]; [by vm_compute|].
  by apply elem_of_nil in Hx.
Qed.

(** X15. Header sanitation leaves a header list as it is when its names
    are pairwise distinct, non-blank, without surrounding whitespace and
    without illegal characters; in particular sanitising the output of a
    sanitation changes nothing. *)
Theorem safe_headers_idempotent (cols : list string) :
  (NoDup cols →
   (∀ c, c ∈ cols → Py.strip c = c ∧ c ≠ "" ∧ no_bad_char c) →
   safe_headers cols = Ok cols)
  ∧ (∀ out, safe_headers cols = Ok out → safe_headers out = Ok out).
Proof.
  assert (∀ l, NoDup l →
            (∀ c, c ∈ l → Py.strip c = c ∧ c ≠ "" ∧ no_bad_char c) →
            safe_headers l = Ok l) as Hfix.
  { intros l Hnd Hall. unfold safe_headers. apply safe_header_loop_fixed; [done|].
    intros c Hc. destruct (Hall c Hc) as (? & ? & ?).
    repeat split; try done. }
  split; [apply Hfix|].
  intros out H. unfold safe_headers in H.
  destruct (safe_header_loop_spec (map Some cols) 1 ∅)
    as (out' & E & Hlen & Hnd & Hall & Hstep).
  rewrite H in E. injection E as <-.
  apply Hfix; [done|]. intros x Hx.
  destruct (Hall x Hx) as (_ & Hne & Hbad).
  split; [|done].
  apply list_elem_of_lookup in Hx as [j Hj].
  assert (is_Some (map Some cols !! j)) as [c Hc].
  { apply lookup_lt_is_Some. rewrite <- Hlen. by eapply lookup_lt_Some. }
  destruct (Hstep j c x Hc Hj) as (m & _ & -> & _).
  apply suffixed_stripped; [apply header_base_stripped | apply header_base_nonempty].
Qed.

(** ** Table names *)

Lemma prefix_cons (n : nat) (c : ascii) (t : string) :
  Py.prefix (S n) (String c t) = String c (Py.prefix n t).
Proof. done. Qed.

Lemma prefix_length (n : nat) (s : string) :
  String.length (Py.prefix n s) = n `min` String.length s.
Proof.
  revert s. induction n as [|n IH]; intros [|c t]; try done.
  rewrite prefix_cons. cbn [String.length]. rewrite IH. lia.
Qed.

Lemma prefix_chars (n : nat) (s : string) (c : ascii) :
  c ∈ Py.chars (Py.prefix n s) → c ∈ Py.chars s.
Proof.
  revert s. induction n as [|n IH]; intros [|x t]; try done.
  - intros H. by apply elem_of_nil in H.
  - rewrite prefix_cons. cbn [Py.chars list_ascii_of_string].
    rewrite !elem_of_cons. intros [->|H]; [by left|right; by apply IH].
Qed.

Lemma alnum_sub (c : ascii) :
  ascii_alnum_ (if ascii_alnum_ c then c else "_"%char) = true.
Proof. destruct (ascii_alnum_ c) eqn:E; [done|reflexivity]. Qed.

Lemma sub_non_word_chars (s : string) (c : ascii) :
  c ∈ Py.chars (sub_non_word s) → ascii_alnum_ c = true.
Proof.
  induction s as [|x t IH]; cbn [sub_non_word Py.chars list_ascii_of_string].
  - intros H. by apply elem_of_nil in H.
  - rewrite elem_of_cons. intros [->|H]; [apply alnum_sub | by apply IH].
Qed.

Lemma sub_non_word_clean (s : string) :
  (∀ c, c ∈ Py.chars s → ascii_alnum_ c = true) → sub_non_word s = s.
Proof.
  induction s as [|x t IH]; [done|]. intros H.
  cbn [sub_non_word]. rewrite (H x) by (by left).
  rewrite IH; [done|]. intros c Hc. apply H. by right.
Qed.

(** X16. A table name is a base followed by an underscore and the first
    eight characters of the identifier drawn for it. The base has 1 to 80
    characters, starts with an ASCII letter and holds only ASCII letters,
    digits and underscores; it is the sheet title itself when the title
    already has that form. Two names for one title are equal exactly when
    the identifier prefixes are equal. *)
Theorem safe_table_name_shape (uuid title : string) :
  ∃ base,
    _safe_table_name uuid title = base +:+ "_" +:+ Py.prefix 8 uuid
    ∧ 1 ≤ String.length base ≤ 80
    ∧ (∃ c t, base = String c t ∧ ascii_alpha c = true)
    ∧ (∀ c, c ∈ Py.chars base → ascii_alnum_ c = true)
    ∧ String.length (_safe_table_name uuid title) ≤ 89
    ∧ (∀ c t, title = String c t → ascii_alpha c = true →
         (∀ x, x ∈ Py.chars title → ascii_alnum_ x = true) →
         String.length title ≤ 80 → base = title)
    ∧ (∀ uuid', _safe_table_name uuid title = _safe_table_name uuid' title
                ↔ Py.prefix 8 uuid = Py.prefix 8 uuid').
Proof.
  unfold _safe_table_name.
  set (b0 := sub_non_word title).
  set (b1 := match b0 with
             | EmptyString => "T_" +:+ b0
             | String c _ => if ascii_alpha c then b0 else "T_" +:+ b0
             end).
  assert (∃ c t, b1 = String c t ∧ ascii_alpha c = true) as (c1 & t1 & E1 & Hc1).
  { unfold b1. destruct b0 as [|c t] eqn:E0; [by exists "T"%char, "_"|].
    destruct (ascii_alpha c) eqn:Ec; [by exists c, t|].
    by exists "T"%char, (String "_" (String c t)). }
  assert (∀ c, c ∈ Py.chars b1 → ascii_alnum_ c = true) as Hall1.
  { assert (∀ c, c ∈ Py.chars ("T_" +:+ b0) → ascii_alnum_ c = true) as HT.
    { intros c. cbn [String.append Py.chars list_ascii_of_string].
      rewrite !elem_of_cons. intros [->|[->|H]]; [done|done|].
      by apply (sub_non_word_chars title). }
    unfold b1. destruct b0 as [|c t] eqn:E0; [done|].
    destruct (ascii_alpha c); [|done].
    intros x Hx. apply (sub_non_word_chars title). fold b0. by rewrite E0. }
  exists (Py.prefix 80 b1). split; [done|].
  split. { rewrite prefix_length, E1. cbn [String.length]. lia. }
  split. { rewrite E1, prefix_cons. by eexists _, _. }
  split. { intros c Hc. by apply Hall1, (prefix_chars 80). }
  split.
  { rewrite !length_append, !prefix_length. cbn [String.length]. lia. }
  split.
  { intros c t Et Hc Hall Hlen.
    assert (b0 = title) as E0 by (by apply sub_non_word_clean).
    assert (b1 = title) as E1'.
    { unfold b1. rewrite E0, Et, Hc. done. }
    rewrite E1'. clear -Hlen. unfold Py.prefix.
    assert (∀ n s, String.length s ≤ n → substring 0 n s = s) as Hsub.
    { induction n as [|n IH]; intros [|x s] H; try done.
      - simpl in H. lia.
      - cbn [substring]. rewrite IH; [done|]. simpl in H. lia. }
    by apply Hsub. }
  intros uuid'. split.
  - intros H. apply append_inj_l in H. by injection H.
  - by intros ->.
Qed.

(** ** What the export writes *)




Lemma reset_index_indexed (f : IndexedFrame) (r : DataFrame) :
  reset_index_obj (OIndexed f) = Ok r →
  (index_name f ∉ icolumns f)
  ∧ r = mkDF (index_name f :: icolumns f) (map Pandas.restore_key (irows f)).
Proof.
  cbn [reset_index_obj]. unfold Pandas.reset_index. case_decide; [done|].
  by intros [= <-].
Qed.

Lemma to_excel_rows_bound (o : pyobj) (name : string) (ws : Worksheet) :
  to_excel o name = Ok ws → (Z.of_nat (length (obj_rows o)) ≤ 1048576)%Z.
Proof. unfold to_excel. case_decide as Hbig; [done|]. intros _. lia. Qed.


(** X18. The export returns only if each prepared table can take its key
    back as a column, that is, the key's name is not among its columns,
    and every table fits a sheet: at most 1048576 rows and, the key column
    counted, at most 16384 columns. *)
Theorem export_needs_room (uuid : string → string) (lo ln la : loc)
    (h h' : heap) (wb : Workbook) (o n : IndexedFrame) (a : DataFrame) :
  h !! lo = Some (OIndexed o) → h !! ln = Some (OIndexed n) →
  h !! la = Some (OFrame a) →
  to_excel_bytes uuid lo ln la h = Ok (wb, h') →
  (index_name o ∉ icolumns o) ∧ (index_name n ∉ icolumns n)
  ∧ (Z.of_nat (length (irows o)) ≤ 1048576)%Z
  ∧ (Z.of_nat (length (icolumns o)) + 1 ≤ 16384)%Z
  ∧ (Z.of_nat (length (irows n)) ≤ 1048576)%Z
  ∧ (Z.of_nat (length (icolumns n)) + 1 ≤ 16384)%Z
  ∧ (Z.of_nat (length (rows a)) ≤ 1048576)%Z
  ∧ (Z.of_nat (length (columns a)) ≤ 16384)%Z.
Proof.
  intros Ho Hn Ha H.
  destruct (to_excel_bytes_ok_inv _ _ _ _ _ _ _ _ _ _ Ho Hn Ha H)
    as (r1 & r2 & out1 & out2 & out3 & s1 & s2 & s3 & Hr1 & Hr2 & Hout1 & Hout2
        & Hout3 & Hs1 & Hs2 & Hs3 & _).
  apply reset_index_indexed in Hr1 as [Hk1 ->].
  apply reset_index_indexed in Hr2 as [Hk2 ->].
  cbn [columns rows obj_columns with_columns] in *.
  pose proof (safe_headers_length _ _ Hout1) as L1.
  pose proof (safe_headers_length _ _ Hout2) as L2.
  pose proof (safe_headers_length _ _ Hout3) as L3.
  cbn [length] in L1, L2.
  pose proof (to_excel_rows_bound _ _ _ Hs1) as B1.
  pose proof (to_excel_rows_bound _ _ _ Hs2) as B2.
  pose proof (to_excel_rows_bound _ _ _ Hs3) as B3.
  apply to_excel_ok_inv in Hs1 as [_ C1].
  apply to_excel_ok_inv in Hs2 as [_ C2].
  apply to_excel_ok_inv in Hs3 as [_ C3].
  cbn [obj_columns obj_rows columns rows] in *.
  rewrite length_map in B1, B2.
  rewrite L1 in C1. rewrite L2 in C2. rewrite L3 in C3.
  split; [done|]. split; [done|]. lia.
Qed.

(** ** The comparison from upload to download *)

Lemma sheet_cells_length (cols : list string) (rws : list (list value)) :
  cols ≠ [] → length (sheet_cells cols rws) = S (length rws).
Proof. destruct cols; [done|]. intros _. cbn [sheet_cells length]. by rewrite length_map. Qed.

Lemma added_keys_length (o n : IndexedFrame) :
  length (added_keys o n) ≤ length (irows n).
Proof.
  transitivity (length (index n)); [|unfold index; by rewrite length_map].
  apply submseteq_length, NoDup_submseteq; [apply added_keys_NoDup|].
  intros k Hk. by apply added_keys_elem in Hk as [? _].
Qed.

Lemma new_rows_with_delay_length (o n : IndexedFrame) (out : DataFrame) :
  NoDup (index n) → _new_rows_with_delay o n = Ok out →
  columns out ≠ [] ∧ length (rows out) ≤ length (irows n).
Proof.
  intros Hnd H.
  assert (length (irows (Pandas.loc (added_keys o n) n)) ≤ length (irows n)) as Hloc.
  { transitivity (length (index (Pandas.loc (added_keys o n) n)));
      [unfold index; by rewrite length_map|].
    rewrite loc_index; [apply added_keys_length | done |].
    intros k Hk. by apply added_keys_elem in Hk as [? _]. }
  apply new_rows_with_delay_shape in H
    as [[Ha ->]|(_ & _ & Hc & [[_ E]|(p & b & Ep & E)])].
  - split; [done|]. cbn [rows length]. lia.
  - split; [by rewrite Hc|]. by rewrite E, length_map.
  - split; [by rewrite Hc|]. rewrite E, length_map.
    etrans; [apply length_filter|]. by rewrite length_map.
Qed.

(** X19. When the comparison succeeds, the two tables it shows are the
    ones [_prepare] makes of the two uploads for the key [Item number]
    and the third is their delta; the delta has no more rows than the new
    table; the workbook has the three sheets, in order and under their
    names, each with one row more than its table; and the store has only
    grown: what was there is unchanged, and the three tables are in it as
    they are shown. *)
Theorem comparison_end_to_end (uuid : string → string)
    (df_old_raw df_new_raw : DataFrame) (h h' : heap)
    (o n : IndexedFrame) (a : DataFrame) (wb : Workbook) :
  vergelijk uuid df_old_raw df_new_raw h = Ok ((o, n, a, wb), h') →
  ∃ cc s1 s2 s3 made,
    _prepare df_old_raw df_new_raw "Item number" = Ok (o, n, cc)
    ∧ _new_rows_with_delay o n = Ok a
    ∧ length (rows a) ≤ length (irows n)
    ∧ wb = [s1; s2; s3]
    ∧ title s1 = "Oude_invoer" ∧ title s2 = "Nieuwe_invoer"
    ∧ title s3 = "Nieuwe_rijen_Delay_gt_0"
    ∧ length (cells s1) = S (length (irows o))
    ∧ length (cells s2) = S (length (irows n))
    ∧ length (cells s3) = S (length (rows a))
    ∧ h' = h ++ [OIndexed o; OIndexed n; OFrame a] ++ made.
Proof.
  unfold vergelijk. intros H.
  apply bind_ok_inv in H as ([[o' n'] cc] & h1 & [Hp ->]%lift_ok_inv & H).
  apply bind_ok_inv in H as (a' & h2 & [Ha ->]%lift_ok_inv & H).
  apply bind_ok_inv in H as (lo & h3 & Hlo & H).
  apply bind_ok_inv in H as (ln & h4 & Hln & H).
  apply bind_ok_inv in H as (la & h5 & Hla & H).
  apply bind_ok_inv in H as (wb' & h6 & Hx & H).
  unfold alloc in Hlo, Hln, Hla.
  injection Hlo as <- <-. injection Hln as <- <-. injection Hla as <- <-.
  unfold mret, M_ret in H. injection H as <- <- <- <- <-.
  rewrite <- !app_assoc in Hx. cbn [app] in Hx.
  assert ((h ++ [OIndexed o'; OIndexed n'; OFrame a']) !! length h
          = Some (OIndexed o')) as L1.
  { rewrite lookup_app_r by lia. by rewrite Nat.sub_diag. }
  assert ((h ++ [OIndexed o'; OIndexed n'; OFrame a']) !! length (h ++ [OIndexed o'])
          = Some (OIndexed n')) as L2.
  { rewrite length_app. cbn [length]. rewrite lookup_app_r by lia.
    by replace (length h + 1 - length h) with 1 by lia. }
  assert ((h ++ [OIndexed o'; OIndexed n'; OFrame a'])
            !! length (h ++ [OIndexed o'; OIndexed n'])
          = Some (OFrame a')) as L3.
  { rewrite length_app. cbn [length]. rewrite lookup_app_r by lia.
    by replace (length h + 2 - length h) with 2 by lia. }
  destruct (to_excel_bytes_ok_inv _ _ _ _ _ _ _ _ _ _ L1 L2 L3 Hx)
    as (r1 & r2 & out1 & out2 & out3 & s1 & s2 & s3 & Hr1 & Hr2 & Hout1 & Hout2
        & Hout3 & Hs1 & Hs2 & Hs3 & Hwb & ->).
  apply reset_index_indexed in Hr1 as [_ ->].
  apply reset_index_indexed in Hr2 as [_ ->].
  cbn [columns rows obj_columns with_columns] in *.
  apply to_excel_ok_inv in Hs1 as [-> _].
  apply to_excel_ok_inv in Hs2 as [-> _].
  apply to_excel_ok_inv in Hs3 as [-> _].
  cbn [obj_columns obj_rows columns rows] in Hwb.
  apply add_tables_three in Hwb as (t1 & t2 & t3 & -> & _).
  pose proof (safe_headers_length _ _ Hout1) as N1.
  pose proof (safe_headers_length _ _ Hout2) as N2.
  pose proof (safe_headers_length _ _ Hout3) as N3.
  cbn [length] in N1, N2.
  destruct (prepare_index_NoDup _ _ _ _ _ _ Hp) as (_ & Hnd & _).
  destruct (new_rows_with_delay_length _ _ _ Hnd Ha) as [Hc Hlen].
  eexists cc, _, _, _, _.
  split; [done|]. split; [done|]. split; [done|]. split; [done|].
  cbn [title cells].
  split; [done|]. split; [done|]. split; [done|].
  split. { rewrite sheet_cells_length, length_map; [done | by destruct out1]. }
  split. { rewrite sheet_cells_length, length_map; [done | by destruct out2]. }
  split. { rewrite sheet_cells_length; [done|]. destruct out3; [|done].
           by destruct (columns a'). }
  rewrite <- app_assoc. done.
Qed.

End App.

(* ===================================================================== *)
(** * The statements on the sample tables *)
(* ===================================================================== *)

Lemma sample_prepare :
  _prepare Sample.float_repr Sample.old_raw Sample.new_raw "Item number"
  = Ok (Sample.old_idx, Sample.new_idx, ["Item number"; "Delay (days)"]).
Proof. vm_compute. reflexivity. Qed.

Lemma sample_added :
  _new_rows_with_delay Sample.parse_number Sample.old_idx Sample.new_idx
  = Ok Sample.added.
Proof. vm_compute. reflexivity. Qed.

Lemma sample_prepare_plain :
  _prepare Sample.float_repr Sample.old_plain Sample.new_plain "Item number"
  = Ok (Sample.old_plain_idx, Sample.new_plain_idx, ["Item number"; "Number"]).
Proof. vm_compute. reflexivity. Qed.

Lemma sample_added_plain :
  _new_rows_with_delay Sample.parse_number Sample.old_plain_idx Sample.new_plain_idx
  = Ok Sample.added_plain.
Proof. vm_compute. reflexivity. Qed.

Lemma added_delay_invariant_witness :
  _new_rows_with_delay Sample.parse_number Sample.old_idx Sample.new_idx
  = Ok Sample.added
  ∧ (∀ r, r ∈ rows Sample.added →
       ∃ k, row_key r = Some (VStr k) ∧ k ∈ index Sample.new_idx
            ∧ (k ∉ index Sample.old_idx))
  ∧ (DELAY ∈ icolumns Sample.new_idx →
     ∀ r q, r ∈ rows Sample.added →
       q ∈ Pandas.positions DELAY (columns Sample.added) →
       Pandas.gt0 (coerced_delay Sample.parse_number (Pandas.get_cell q r)) = true)
  ∧ ((DELAY ∉ columns Sample.added) → DELAY ∉ icolumns Sample.new_idx).
Proof.
  split; [vm_compute; reflexivity|].
  apply (added_delay_invariant Sample.parse_number Sample.old_idx Sample.new_idx
           Sample.added).
  vm_compute. reflexivity.
Defined.

Lemma missing_key_column_raises_witness :
  _ensure_item_number (_canon_columns Sample.old_raw) = Ok Sample.old_canon
  ∧ _ensure_item_number (_canon_columns Sample.new_unknown)
    = Ok Sample.new_unknown_canon
  ∧ (("Item number" ∉ columns Sample.old_canon)
     ∨ ("Item number" ∉ columns Sample.new_unknown_canon))
  ∧ _prepare Sample.float_repr Sample.old_raw Sample.new_unknown "Item number"
    = Raise (KeyError
        ("Kolom 'Item number' ontbreekt in " +:+ E_ACUTE +:+ E_ACUTE
         +:+ "n van de bestanden." +:+ NL
         +:+ "Oud kolommen: ['Item number', 'Delay (days)']" +:+ NL
         +:+ "Nieuw kolommen: ['Artikel', 'Delay (days)']"))
  ∧ no_key_error
      (_prepare Sample.float_repr Sample.old_raw Sample.new_raw "Item number").
Proof.
  assert (("Item number" ∉ columns Sample.old_canon)
          ∨ ("Item number" ∉ columns Sample.new_unknown_canon)) as Hmiss.
  { right. vm_compute. intros H. repeat (apply elem_of_cons in H as [H|H];
      [discriminate H|]). by apply elem_of_nil in H. }
  split; [vm_compute; reflexivity|]. split; [vm_compute; reflexivity|].
  split; [exact Hmiss|]. split.
  - destruct (missing_key_column_raises Sample.float_repr Sample.parse_number
                Sample.old_raw Sample.new_unknown "Item number"
                Sample.old_canon Sample.new_unknown_canon) as [H _];
      [vm_compute; reflexivity | vm_compute; reflexivity |].
    destruct (H Hmiss) as [E _]. rewrite E. vm_compute. reflexivity.
  - destruct (missing_key_column_raises Sample.float_repr Sample.parse_number
                Sample.old_raw Sample.new_raw "Item number"
                Sample.old_canon
                (mkDF ["Item number"; "Delay (days)"] (rows Sample.new_raw)))
      as [_ H]; [vm_compute; reflexivity | vm_compute; reflexivity |].
    apply H; vm_compute; [by left | by left].
Defined.


Lemma no_delay_column_keeps_all_new_rows_witness :
  _prepare Sample.float_repr Sample.old_plain Sample.new_plain "Item number"
  = Ok (Sample.old_plain_idx, Sample.new_plain_idx, ["Item number"; "Number"])
  ∧ (DELAY ∉ icolumns Sample.new_plain_idx)
  ∧ ∃ out,
      _new_rows_with_delay Sample.parse_number Sample.old_plain_idx
        Sample.new_plain_idx = Ok out
      ∧ rows out ≡ₚ map Pandas.restore_key
                      (filter (fun kr => kr.1 ∉ index Sample.old_plain_idx)
                              (irows Sample.new_plain_idx))
      ∧ map row_key (rows out)
        = map (fun k => Some (VStr k))
              (added_keys Sample.old_plain_idx Sample.new_plain_idx)
      ∧ ∀ k, k ∈ index Sample.new_plain_idx →
          (k ∉ index Sample.old_plain_idx) →
          ∃ cells, (k, cells) ∈ irows Sample.new_plain_idx
            ∧ filter (fun r => row_key r = Some (VStr k)) (rows out)
              = [VStr k :: cells].
Proof.
  assert (DELAY ∉ icolumns Sample.new_plain_idx) as Hd.
  { vm_compute. intros H. repeat (apply elem_of_cons in H as [H|H];
      [discriminate H|]). by apply elem_of_nil in H. }
  split; [vm_compute; reflexivity|]. split; [exact Hd|].
  apply (no_delay_column_keeps_all_new_rows Sample.float_repr Sample.parse_number
           Sample.old_plain Sample.new_plain "Item number" Sample.old_plain_idx
           Sample.new_plain_idx ["Item number"; "Number"]);
    [vm_compute; reflexivity | exact Hd].
Defined.

Lemma delay_column_holds_coerced_numbers_witness :
  _prepare Sample.float_repr Sample.old_raw Sample.new_raw "Item number"
  = Ok (Sample.old_idx, Sample.new_idx, ["Item number"; "Delay (days)"])
  ∧ DELAY ∈ icolumns Sample.new_idx
  ∧ _new_rows_with_delay Sample.parse_number Sample.old_idx Sample.new_idx
    = Ok Sample.added
  ∧ (∀ r q, r ∈ rows Sample.added →
       q ∈ Pandas.positions DELAY (columns Sample.added) →
       is_number (Pandas.get_cell q r)
       ∧ Pandas.gt0 (Pandas.get_cell q r) = true)
  ∧ (∀ r, r ∈ rows Sample.added → row_key r ≠ Some (VStr "8"))
  ∧ (∀ r, r ∈ rows Sample.added → row_key r ≠ Some (VStr "9")).
Proof.
  assert (DELAY ∈ icolumns Sample.new_idx) as Hd by (vm_compute; by left).
  destruct (delay_column_holds_coerced_numbers Sample.float_repr
              Sample.parse_number Sample.old_raw Sample.new_raw "Item number"
              Sample.old_idx Sample.new_idx ["Item number"; "Delay (days)"]
              Sample.added) as [Hnum Hdrop];
    [vm_compute; reflexivity | exact Hd | vm_compute; reflexivity |].
  split; [vm_compute; reflexivity|]. split; [exact Hd|].
  split; [vm_compute; reflexivity|]. split; [|split].
  - intros r q Hr Hq. destruct (Hnum r q Hr Hq) as (H1 & H2 & _). by split.
  - apply (Hdrop "8" [VStr "x"] 0).
    + vm_compute. right. right. by left.
    + vm_compute. intros H. apply elem_of_cons in H as [H|H]; [discriminate H|].
      by apply elem_of_nil in H.
    + vm_compute. by left.
    + vm_compute. reflexivity.
  - apply (Hdrop "9" [VNone] 0).
    + vm_compute. right. right. right. by left.
    + vm_compute. intros H. apply elem_of_cons in H as [H|H]; [discriminate H|].
      by apply elem_of_nil in H.
    + vm_compute. by left.
    + vm_compute. reflexivity.
Defined.

Lemma excel_safe_headers_guarantees_witness :
  safe_headers ["a"; " "; "a"; "a_2"; "b/c"; "Column2"]
  = Ok ["a"; "Column2"; "a_2"; "a_2_2"; "b_c"; "Column2_2"]
  ∧ ["a"; " "; "a"; "a_2"; "b/c"; "Column2"] !! 2 = Some "a"
  ∧ Py.strip "a" ≠ ""
  ∧ header_base 3 (Some "a") = sub_bad_chars (Py.strip "a")
  ∧ ∃ m, 1 ≤ m
      ∧ "a_2" = suffixed (header_base 3 (Some "a")) m
      ∧ ("a_2" ∉ take 2 ["a"; "Column2"; "a_2"; "a_2_2"; "b_c"; "Column2_2"])
      ∧ ∀ q, 1 ≤ q < m →
          suffixed (header_base 3 (Some "a")) q
          ∈ take 2 ["a"; "Column2"; "a_2"; "a_2_2"; "b_c"; "Column2_2"].
Proof.
  destruct (excel_safe_headers_guarantees ["a"; " "; "a"; "a_2"; "b/c"; "Column2"])
    as (out & E & _ & _ & _ & _ & Hstep & _).
  vm_compute in E. injection E as <-.
  assert (Py.strip "a" ≠ "") as Hne by (vm_compute; discriminate).
  split; [vm_compute; reflexivity|]. split; [reflexivity|]. split; [exact Hne|].
  destruct (Hstep 2 "a" "a_2") as (_ & Htext & Hm); [reflexivity | reflexivity |].
  split; [exact (Htext Hne) | exact Hm].
Defined.


Lemma export_leaves_tables_unchanged_witness :
  ∃ wb h',
    [OIndexed Sample.old_idx; OIndexed Sample.new_idx; OFrame Sample.added] !! 2
    = Some (OFrame Sample.added)
    ∧ to_excel_bytes Sample.uuid 0 1 2
        [OIndexed Sample.old_idx; OIndexed Sample.new_idx; OFrame Sample.added]
      = Ok (wb, h')
    ∧ h' !! 0 = Some (OIndexed Sample.old_idx)
    ∧ h' !! 1 = Some (OIndexed Sample.new_idx)
    ∧ h' !! 2 = Some (OFrame Sample.added)
    ∧ ∀ l o,
        [OIndexed Sample.old_idx; OIndexed Sample.new_idx; OFrame Sample.added] !! l
        = Some o → h' !! l = Some o.
Proof.
  eexists _, _. split; [reflexivity|]. split; [vm_compute; reflexivity|].
  eapply (export_leaves_tables_unchanged Sample.uuid 0 1 2
           [OIndexed Sample.old_idx; OIndexed Sample.new_idx; OFrame Sample.added]
           _ _ (OIndexed Sample.old_idx) (OIndexed Sample.new_idx)
           (OFrame Sample.added));
    [reflexivity | reflexivity | reflexivity | vm_compute; reflexivity].
Defined.

(** ** The further properties on the sample tables *)

Lemma canonical_name_ignores_case_witness :
  Py.lower "ITEM-No" = Py.lower "item-no"
  ∧ _norm_key_name (Some "ITEM-No") = _norm_key_name (Some "item-no")
  ∧ canon_target "ITEM-No" = canon_target "item-no".
Proof.
  split; [vm_compute; reflexivity|].
  apply (canonical_name_ignores_case "ITEM-No" "item-no").
  vm_compute. reflexivity.
Defined.

Lemma canon_columns_renames_each_header_witness :
  columns Sample.new_raw !! 0 = Some "Item  Number"
  ∧ _norm_key_name (Some "Item  Number") ∈ item_names
  ∧ columns (_canon_columns Sample.new_raw) !! 0 = Some "Item number".
Proof.
  assert (_norm_key_name (Some "Item  Number") ∈ item_names) as Hin.
  { apply (bool_decide_unpack _). vm_compute. reflexivity. }
  split; [reflexivity|]. split; [exact Hin|].
  destruct (canon_columns_renames_each_header Sample.new_raw) as (_ & _ & H).
  destruct (H 0 "Item  Number") as (E & Hitem & _); [reflexivity|].
  rewrite E. apply (f_equal Some). exact (Hitem Hin).
Defined.

Lemma ensure_item_number_cases_witness :
  ("Item number" ∉ columns Sample.old_plain)
  ∧ Pandas.positions "Number" (columns Sample.old_plain) = [0]
  ∧ ∃ df', _ensure_item_number Sample.old_plain = Ok df'
      ∧ columns df' = ["Number"; "Item number"]
      ∧ ∃ r', rows df' !! 0 = Some r'
          ∧ Pandas.get_cell 1 r' = VInt 1.
Proof.
  assert ("Item number" ∉ columns Sample.old_plain) as Hno.
  { apply (bool_decide_unpack _). vm_compute. reflexivity. }
  split; [exact Hno|]. split; [vm_compute; reflexivity|].
  destruct (ensure_item_number_cases Sample.old_plain) as (_ & _ & H & _).
  destruct (H Hno 0) as (df' & E & Hc & _ & Hr); [vm_compute; reflexivity|].
  exists df'. split; [exact E|]. split; [exact Hc|].
  destruct (Hr 0 [VInt 1]) as (r' & Er & _ & _ & Hk); [reflexivity|].
  exists r'. split; [exact Er | exact Hk].
Defined.



Lemma prepare_aligns_columns_witness :
  _prepare Sample.float_repr Sample.old_plain Sample.new_plain "Item number"
  = Ok (Sample.old_plain_idx, Sample.new_plain_idx, ["Item number"; "Number"])
  ∧ NoDup ["Item number"; "Number"]
  ∧ ∃ rest, ["Item number"; "Number"] = "Item number" :: rest
      ∧ (∀ c, c ∈ icolumns Sample.old_plain_idx ↔ c ∈ rest)
      ∧ (∀ c, c ∈ icolumns Sample.new_plain_idx ↔ c ∈ rest).
Proof.
  split; [vm_compute; reflexivity|].
  destruct (prepare_aligns_columns Sample.float_repr Sample.old_plain
              Sample.new_plain "Item number" Sample.old_plain_idx
              Sample.new_plain_idx ["Item number"; "Number"])
    as (old' & new' & rest & _ & _ & Hcc & Hnd & _ & _ & Ho & Hn & _);
    [vm_compute; reflexivity|].
  split; [exact Hnd|]. exists rest. split; [exact Hcc|]. split; [exact Ho | exact Hn].
Defined.

Lemma prepare_symmetric_witness :
  _prepare Sample.float_repr Sample.old_raw Sample.new_raw "Item number"
  = Ok (Sample.old_idx, Sample.new_idx, ["Item number"; "Delay (days)"])
  ∧ _prepare Sample.float_repr Sample.new_raw Sample.old_raw "Item number"
    = Ok (Sample.new_idx, Sample.old_idx, ["Item number"; "Delay (days)"]).
Proof.
  split; [vm_compute; reflexivity|].
  apply (prepare_symmetric Sample.float_repr Sample.old_raw Sample.new_raw).
  vm_compute. reflexivity.
Defined.


Lemma added_rows_sorted_by_key_witness :
  NoDup (index Sample.new_idx)
  ∧ _new_rows_with_delay Sample.parse_number Sample.old_idx Sample.new_idx
    = Ok Sample.added
  ∧ ∃ ks, map row_key (rows Sample.added) = map (fun k => Some (VStr k)) ks
      ∧ StronglySorted Py.str_le ks
      ∧ NoDup ks
      ∧ sublist ks (added_keys Sample.old_idx Sample.new_idx).
Proof.
  assert (NoDup (index Sample.new_idx)) as Hnd.
  { apply (bool_decide_unpack _). vm_compute. reflexivity. }
  split; [exact Hnd|]. split; [vm_compute; reflexivity|].
  apply (added_rows_sorted_by_key Sample.parse_number Sample.old_idx
           Sample.new_idx Sample.added Hnd).
  vm_compute. reflexivity.
Defined.

Lemma added_rows_depend_on_old_keys_only_witness :
  (∀ k, k ∈ index Sample.old_idx
        ↔ k ∈ index (mkIF "Artikel" [] [("1001", [])]))
  ∧ _new_rows_with_delay Sample.parse_number Sample.old_idx Sample.new_idx
    = _new_rows_with_delay Sample.parse_number
        (mkIF "Artikel" [] [("1001", [])]) Sample.new_idx.
Proof.
  assert (∀ k, k ∈ index Sample.old_idx
               ↔ k ∈ index (mkIF "Artikel" [] [("1001", [])])) as H.
  { intros k. reflexivity. }
  split; [exact H|].
  exact (added_rows_depend_on_old_keys_only Sample.parse_number Sample.old_idx
           (mkIF "Artikel" [] [("1001", [])]) Sample.new_idx H).
Defined.

Lemma added_rows_header_and_empty_case_witness :
  (∀ k, k ∈ index Sample.old_idx → k ∈ index Sample.old_idx)
  ∧ _new_rows_with_delay Sample.parse_number Sample.old_idx Sample.old_idx
    = Ok (mkDF ["Item number"; "Delay (days)"] [])
  ∧ index_name Sample.new_idx = "Item number"
  ∧ ("Item number" ∉ icolumns Sample.new_idx)
  ∧ columns Sample.added = "Item number" :: icolumns Sample.new_idx.
Proof.
  assert ("Item number" ∉ icolumns Sample.new_idx) as Hno.
  { apply (bool_decide_unpack _). vm_compute. reflexivity. }
  split; [intros k Hk; exact Hk|].
  split.
  { destruct (added_rows_header_and_empty_case Sample.parse_number Sample.old_idx
                Sample.old_idx) as [H _].
    rewrite H; [vm_compute; reflexivity | intros k Hk; exact Hk]. }
  split; [reflexivity|]. split; [exact Hno|].
  destruct (added_rows_header_and_empty_case Sample.parse_number Sample.old_idx
              Sample.new_idx) as [_ H].
  apply (H eq_refl Hno Sample.added). vm_compute. reflexivity.
Defined.


Lemma added_rows_outcome_witness :
  added_keys Sample.old_idx
    (mkIF "Item number" ["Delay (days)"; "Delay (days)"] [("5", [VInt 1; VInt 2])])
  ≠ []
  ∧ 2 ≤ length (Pandas.positions DELAY ["Delay (days)"; "Delay (days)"])
  ∧ (∃ msg,
       _new_rows_with_delay Sample.parse_number Sample.old_idx
         (mkIF "Item number" ["Delay (days)"; "Delay (days)"]
               [("5", [VInt 1; VInt 2])])
       = Raise (TypeError msg))
  ∧ ∃ out,
      _new_rows_with_delay Sample.parse_number Sample.old_idx Sample.new_idx
      = Ok out.
Proof.
  assert (added_keys Sample.old_idx
            (mkIF "Item number" ["Delay (days)"; "Delay (days)"]
                  [("5", [VInt 1; VInt 2])]) ≠ []) as Ha.
  { vm_compute. discriminate. }
  assert (2 ≤ length (Pandas.positions DELAY ["Delay (days)"; "Delay (days)"]))
    as Hl.
  { vm_compute. lia. }
  split; [exact Ha|]. split; [exact Hl|]. split.
  - destruct (added_rows_outcome Sample.parse_number Sample.old_idx
                (mkIF "Item number" ["Delay (days)"; "Delay (days)"]
                      [("5", [VInt 1; VInt 2])])) as (_ & H & _).
    exact (H Ha Hl).
  - destruct (added_rows_outcome Sample.parse_number Sample.old_idx
                Sample.new_idx) as ([_ H] & _).
    apply H. right. split; [vm_compute; lia|].
    apply (bool_decide_unpack _). vm_compute. reflexivity.
Defined.

Lemma safe_headers_idempotent_witness :
  NoDup ["Item number"; "Delay (days)"]
  ∧ safe_headers ["Item number"; "Delay (days)"]
    = Ok ["Item number"; "Delay (days)"]
  ∧ safe_headers ["a"; " "; "a"; "a_2"; "b/c"; "Column2"]
    = Ok ["a"; "Column2"; "a_2"; "a_2_2"; "b_c"; "Column2_2"]
  ∧ safe_headers ["a"; "Column2"; "a_2"; "a_2_2"; "b_c"; "Column2_2"]
    = Ok ["a"; "Column2"; "a_2"; "a_2_2"; "b_c"; "Column2_2"].
Proof.
  assert (NoDup ["Item number"; "Delay (days)"]) as Hnd.
  { apply (bool_decide_unpack _). vm_compute. reflexivity. }
  assert (∀ c, c ∈ ["Item number"; "Delay (days)"] →
               Py.strip c = c ∧ c ≠ "" ∧ no_bad_char c) as Hall.
  { intros c Hc.
    apply elem_of_cons in Hc as [->|Hc].
    { split; [vm_compute; reflexivity|]. split; [discriminate|].
      intros x Hx. vm_compute in Hx.
      repeat (apply elem_of_cons in Hx as [->|Hx]; [reflexivity|]).
      apply elem_of_nil in Hx. destruct Hx. }
    apply elem_of_cons in Hc as [->|Hc];
      [|apply elem_of_nil in Hc; destruct Hc].
    split; [vm_compute; reflexivity|]. split; [discriminate|].
    intros x Hx. vm_compute in Hx.
    repeat (apply elem_of_cons in Hx as [->|Hx]; [reflexivity|]).
    apply elem_of_nil in Hx. destruct Hx. }
  split; [exact Hnd|]. split.
  - destruct (safe_headers_idempotent ["Item number"; "Delay (days)"]) as [H _].
    exact (H Hnd Hall).
  - split; [vm_compute; reflexivity|].
    destruct (safe_headers_idempotent ["a"; " "; "a"; "a_2"; "b/c"; "Column2"])
      as [_ H].
    apply H. vm_compute. reflexivity.
Defined.

Lemma safe_table_name_shape_witness :
  ascii_alpha "O" = true
  ∧ String.length "Oude_invoer" ≤ 80
  ∧ ∃ base,
      _safe_table_name (Sample.uuid "Oude_invoer") "Oude_invoer"
      = base +:+ "_" +:+ Py.prefix 8 (Sample.uuid "Oude_invoer")
      ∧ base = "Oude_invoer".
Proof.
  split; [vm_compute; reflexivity|]. split; [vm_compute; lia|].
  assert (∀ x, x ∈ Py.chars "Oude_invoer" → ascii_alnum_ x = true) as Hall.
  { intros x Hx. vm_compute in Hx.
    repeat (apply elem_of_cons in Hx as [->|Hx]; [reflexivity|]).
    apply elem_of_nil in Hx. destruct Hx. }
  destruct (safe_table_name_shape (Sample.uuid "Oude_invoer") "Oude_invoer")
    as (base & E & _ & _ & _ & _ & Hsame & _).
  exists base. split; [exact E|].
  apply (Hsame "O"%char "ude_invoer");
    [reflexivity | vm_compute; reflexivity | exact Hall | vm_compute; lia].
Defined.


Lemma export_needs_room_witness :
  ∃ wb h',
    [OIndexed Sample.old_idx; OIndexed Sample.new_idx; OFrame Sample.added] !! 1
    = Some (OIndexed Sample.new_idx)
    ∧ to_excel_bytes Sample.uuid 0 1 2
        [OIndexed Sample.old_idx; OIndexed Sample.new_idx; OFrame Sample.added]
      = Ok (wb, h')
    ∧ (index_name Sample.old_idx ∉ icolumns Sample.old_idx)
    ∧ (index_name Sample.new_idx ∉ icolumns Sample.new_idx)
    ∧ (Z.of_nat (length (irows Sample.new_idx)) ≤ 1048576)%Z.
Proof.
  assert (∃ wb h',
            to_excel_bytes Sample.uuid 0 1 2
              [OIndexed Sample.old_idx; OIndexed Sample.new_idx;
               OFrame Sample.added] = Ok (wb, h')) as (wb & h' & Hx).
  { eexists _, _. vm_compute. reflexivity. }
  exists wb, h'. split; [reflexivity|]. split; [exact Hx|].
  destruct (export_needs_room Sample.uuid 0 1 2
           [OIndexed Sample.old_idx; OIndexed Sample.new_idx; OFrame Sample.added]
           h' wb Sample.old_idx Sample.new_idx Sample.added)
    as (H1 & H2 & _ & _ & H3 & _);
    [reflexivity | reflexivity | reflexivity | exact Hx |].
  split; [exact H1|]. split; [exact H2 | exact H3].
Defined.

Lemma comparison_end_to_end_witness :
  ∃ wb h',
    vergelijk Sample.float_repr Sample.parse_number Sample.uuid
      Sample.old_raw Sample.new_raw []
    = Ok ((Sample.old_idx, Sample.new_idx, Sample.added, wb), h')
    ∧ ∃ cc s1 s2 s3 made,
        _prepare Sample.float_repr Sample.old_raw Sample.new_raw "Item number"
        = Ok (Sample.old_idx, Sample.new_idx, cc)
        ∧ _new_rows_with_delay Sample.parse_number Sample.old_idx Sample.new_idx
          = Ok Sample.added
        ∧ length (rows Sample.added) ≤ length (irows Sample.new_idx)
        ∧ wb = [s1; s2; s3]
        ∧ title s1 = "Oude_invoer" ∧ title s2 = "Nieuwe_invoer"
        ∧ title s3 = "Nieuwe_rijen_Delay_gt_0"
        ∧ length (cells s1) = S (length (irows Sample.old_idx))
        ∧ length (cells s2) = S (length (irows Sample.new_idx))
        ∧ length (cells s3) = S (length (rows Sample.added))
        ∧ h' = [] ++ [OIndexed Sample.old_idx; OIndexed Sample.new_idx;
                      OFrame Sample.added] ++ made.
Proof.
  assert (∃ wb h',
            vergelijk Sample.float_repr Sample.parse_number Sample.uuid
              Sample.old_raw Sample.new_raw []
            = Ok ((Sample.old_idx, Sample.new_idx, Sample.added, wb), h'))
    as (wb & h' & Hx).
  { eexists _, _. vm_compute. reflexivity. }
  exists wb, h'. split; [exact Hx|].
  exact (comparison_end_to_end Sample.float_repr Sample.parse_number Sample.uuid
           Sample.old_raw Sample.new_raw [] h' Sample.old_idx Sample.new_idx
           Sample.added wb Hx).
Defined.
